(** * A shallow embedding of the timecard record store (src/timecard.py)

    The SQLite connection held in the module global [self.db] is the
    state of a small state-and-exception monad.  Each SQL statement of
    the source is a Rocq function on the tables; a Python exception
    stops the computation and keeps the state reached so far. *)

From Stdlib Require Import ZArith List String Ascii Bool Lia Permutation.
Import ListNotations.
Open Scope string_scope.
Open Scope Z_scope.

(** ** Python's [str] on integers *)

Fixpoint str_digits (fuel : nat) (n : Z) (acc : string) : string :=
  match fuel with
  | O => acc
  | S f =>
      let acc' := String (ascii_of_nat (48 + Z.to_nat (Z.modulo n 10))%nat) acc in
      if Z.eqb (Z.div n 10) 0 then acc' else str_digits f (Z.div n 10) acc'
  end.

Definition str_nonneg (n : Z) : string :=
  str_digits (Pos.size_nat (Z.to_pos n) + 1) n "".

(** [str(z)] for a Python int. *)
Definition str_Z (z : Z) : string :=
  if z <? 0 then "-" ++ str_nonneg (- z) else str_nonneg z.

(** ** Records as stored in the [timecards] and [punches] tables

    Timestamps are stored by SQLite's [current_timestamp] as naive
    ['YYYY-MM-DD HH:MM:SS'] text in UTC; we keep them as the number of
    seconds since the epoch that the text denotes. *)

Record Timecard := mkTimecard {
  tc_id : Z;
  tc_owner : string;
  tc_descr : string;
  tc_active : bool;
  tc_created : Z;
  tc_reported : option Z
}.

Record Punch := mkPunch {
  p_id : Z;
  p_timecard : Z;
  p_descr : string;
  p_paid : bool;
  p_active : bool;
  p_time_in : Z;
  p_time_out : option Z
}.

(** Tables keep their rows in rowid (insertion) order, the order a
    [select] without [order by] returns them in. *)
Record Store := mkStore {
  timecards : list Timecard;
  punches : list Punch
}.

Definition empty_store : Store := mkStore [] [].

(** What the process reads from its environment: the value of
    [current_timestamp], [getpass.getuser()] and the ISO week of
    [date.today()]. *)
Record Env := mkEnv {
  env_now : Z;
  env_user : string;
  env_iso_week : Z
}.

(** ** The connection monad *)

Inductive exn :=
| AttributeError      (* a method called on [None] *)
| TypeError           (* [None['field']] *)
| DatabaseNotEstablished.  (* raised by [require_database] *)

Inductive result (A : Type) :=
| Ok (a : A)
| Err (e : exn).
Arguments Ok {A} a.
Arguments Err {A} e.

(** [self.db]: [None] before [open_timecard]. *)
Definition Conn := option Store.

Definition M (A : Type) := Conn -> result A * Conn.

Definition ret {A} (a : A) : M A := fun c => (Ok a, c).

Definition bind {A B} (m : M A) (k : A -> M B) : M B :=
  fun c =>
    match m c with
    | (Ok a, c') => k a c'
    | (Err e, c') => (Err e, c')
    end.

Definition raise {A} (e : exn) : M A := fun c => (Err e, c).

Notation "x <- m ;; k" := (bind m (fun x => k))
  (at level 61, m at next level, right associativity).
Notation "m ;;; k" := (bind m (fun _ => k))
  (at level 61, right associativity).

(** [self.db.execute(stmt, params)] for a writing statement. *)
Definition execute_write (f : Store -> Store) : M unit :=
  fun c =>
    match c with
    | None => (Err AttributeError, c)
    | Some s => (Ok tt, Some (f s))
    end.

(** [self.db.execute(stmt, params).fetchone()/fetchall()] for a reading
    statement. *)
Definition execute_read {A} (f : Store -> A) : M A :=
  fun c =>
    match c with
    | None => (Err AttributeError, c)
    | Some s => (Ok (f s), c)
    end.

(** [self.db.commit()]: one connection sees its own writes, so a commit
    changes nothing observable here. *)
Definition commit : M unit := execute_read (fun _ => tt).

(** The [@require_database] decorator. *)
Definition require_database {A} (m : M A) : M A :=
  fun c =>
    match c with
    | None => (Err DatabaseNotEstablished, c)
    | Some _ => m c
    end.

(** ** SQL helpers *)

(** Rowid of an [integer primary key] inserted without one: one more
    than the largest rowid of the table, 1 for an empty table. *)
Definition next_rowid (ids : list Z) : Z :=
  match ids with
  | [] => 1
  | i :: rest => fold_right Z.max i rest + 1
  end.

(** [order by key desc]: a stable sort, rows with equal keys stay in
    table order. *)
Fixpoint insert_desc {A} (key : A -> Z) (x : A) (l : list A) : list A :=
  match l with
  | [] => [x]
  | y :: t => if key y <? key x then x :: l else y :: insert_desc key x t
  end.

Definition order_by_desc {A} (key : A -> Z) (l : list A) : list A :=
  fold_left (fun acc x => insert_desc key x acc) l [].

(** [fetchone()] *)
Definition fetchone {A} (rows : list A) : option A := hd_error rows.

(** Python truthiness of an optional string ([not owner]). *)
Definition py_str_truthy (s : option string) : bool :=
  match s with
  | None => false
  | Some v => negb (String.eqb v "")
  end.

(** ** Timecards *)

(** [update timecards set active = false where owner = ?] *)
Definition deactivate_if_owner (owner : string) (t : Timecard) : Timecard :=
  if String.eqb (tc_owner t) owner
  then mkTimecard (tc_id t) (tc_owner t) (tc_descr t) false (tc_created t) (tc_reported t)
  else t.

Definition deactivate_existing_timecards (owner : string) (s : Store) : Store :=
  mkStore (map (deactivate_if_owner owner) (timecards s)) (punches s).

Definition next_timecard_id (s : Store) : Z := next_rowid (map tc_id (timecards s)).

(** [insert into timecards (owner, descr) values (?, ?)]: [active]
    defaults to true, [created] to [current_timestamp]. *)
Definition create_new_timecard (now : Z) (owner descr : string) (s : Store) : Store :=
  mkStore (timecards s ++ [mkTimecard (next_timecard_id s) owner descr true now None])
          (punches s).

(** [select id from timecards where owner = ? and descr = ? and
    active = true order by created desc] *)
Definition retrieve_created_timecard (owner descr : string) (s : Store) : list Timecard :=
  order_by_desc tc_created
    (filter (fun t => String.eqb (tc_owner t) owner && String.eqb (tc_descr t) descr
                      && tc_active t) (timecards s)).

(** The owner [create_timecard] stores: [if not owner: owner = getpass.getuser()]. *)
Definition effective_owner (env : Env) (owner : option string) : string :=
  match owner with
  | Some o => if py_str_truthy owner then o else env_user env
  | None => env_user env
  end.

Definition effective_descr (env : Env) (descr : option string) : string :=
  match descr with
  | Some d => if py_str_truthy descr then d else "Week " ++ str_Z (env_iso_week env)
  | None => "Week " ++ str_Z (env_iso_week env)
  end.

Definition create_timecard (env : Env) (owner descr : option string) : M (option Z) :=
  require_database (
    let owner := effective_owner env owner in
    let descr := effective_descr env descr in
    execute_write (deactivate_existing_timecards owner) ;;;
    execute_write (create_new_timecard (env_now env) owner descr) ;;;
    commit ;;;
    result <- execute_read (fun s => fetchone (retrieve_created_timecard owner descr s)) ;;
    ret (option_map tc_id result)).

(** The timecards of [owner] with [active = true]. *)
Definition active_timecards_of (owner : string) (s : Store) : list Timecard :=
  filter (fun t => String.eqb (tc_owner t) owner && tc_active t) (timecards s).

Definition timecards_not_of (owner : string) (s : Store) : list Timecard :=
  filter (fun t => negb (String.eqb (tc_owner t) owner)) (timecards s).

(** ** Timezone-aware datetimes

    A Python aware [datetime] is its wall-clock reading (seconds since
    the epoch of that naive reading) together with its UTC offset in
    seconds. *)

Record datetime := mkDatetime {
  dt_wall : Z;
  dt_offset : Z
}.

(** [datetime.date()]: the calendar day of the wall-clock reading, as a
    day number; [date.isoformat()] is injective on days, so it serves as
    the [date_key] of [get_paid_time_summary]. *)
Definition dt_date (d : datetime) : Z := Z.div (dt_wall d) 86400.

(** [datetime.astimezone()] into a local zone of offset [local]. *)
Definition astimezone (local : Z) (d : datetime) : datetime :=
  mkDatetime (dt_wall d - dt_offset d + local) local.

(** Durations ([timedelta]) are kept as a number of microseconds. *)
Definition timedelta := Z.

(** [a - b] on aware datetimes: the difference of the UTC instants. *)
Definition dt_sub (a b : datetime) : timedelta :=
  ((dt_wall a - dt_offset a) - (dt_wall b - dt_offset b)) * 1000000.

(** The offset [%z] parses from [f'{offset_hrs * 100 + offset_mins:+05}']. *)
Definition parsed_offset (offset_hrs offset_mins : Z) : Z :=
  let v := offset_hrs * 100 + offset_mins in
  Z.sgn v * (Z.quot (Z.abs v) 100 * 3600 + Z.rem (Z.abs v) 100 * 60).

(** [sqlite_ts_to_datetime(timestamp, offset_hrs, offset_mins)]: the
    stored reading, with the given offset attached. *)
Definition sqlite_ts_to_datetime (ts offset_hrs offset_mins : Z) : datetime :=
  mkDatetime ts (parsed_offset offset_hrs offset_mins).

(** A punch row after [row_to_dict] and [convert_record_to_datetime]. *)
Record PunchDict := mkPunchDict {
  pd_id : Z;
  pd_timecard : Z;
  pd_descr : string;
  pd_paid : bool;
  pd_active : bool;
  pd_time_in : datetime;
  pd_time_out : option datetime
}.

Definition convert_record_to_datetime (p : Punch) : PunchDict :=
  mkPunchDict (p_id p) (p_timecard p) (p_descr p) (p_paid p) (p_active p)
    (sqlite_ts_to_datetime (p_time_in p) 0 0)
    (option_map (fun t => sqlite_ts_to_datetime t 0 0) (p_time_out p)).

(** ** Punches *)

(** [where id = ?] with a Python value bound: [None] binds SQL [NULL],
    which equals nothing. *)
Definition sql_eq_param (param : option Z) (v : Z) : bool :=
  match param with
  | Some i => Z.eqb i v
  | None => false
  end.

(** Python truthiness of an optional int ([if punch_id:]). *)
Definition py_int_truthy (v : option Z) : bool :=
  match v with
  | Some i => negb (Z.eqb i 0)
  | None => false
  end.

Definition active_punches_of (timecard_id : Z) (s : Store) : list Punch :=
  filter (fun p => Z.eqb (p_timecard p) timecard_id && p_active p) (punches s).

(** [get_active_punch_id]: [select id from punches where timecard = ?
    and active = true order by time_in desc limit 1] *)
Definition get_active_punch_id (timecard_id : Z) : M (option Z) :=
  require_database (
    result <- execute_read (fun s =>
                fetchone (order_by_desc p_time_in (active_punches_of timecard_id s))) ;;
    ret (option_map p_id result)).

(** [get_punch]: [select * from punches where id = ?] *)
Definition get_punch (punch_id : option Z) : M (option PunchDict) :=
  require_database (
    punch <- execute_read (fun s =>
               fetchone (filter (fun p => sql_eq_param punch_id (p_id p)) (punches s))) ;;
    ret (option_map convert_record_to_datetime punch)).

(** [update punches set active = false where timecard = ?] *)
Definition deactivate_if_timecard (timecard_id : Z) (p : Punch) : Punch :=
  if Z.eqb (p_timecard p) timecard_id
  then mkPunch (p_id p) (p_timecard p) (p_descr p) (p_paid p) false (p_time_in p) (p_time_out p)
  else p.

Definition deactivate_old_punches (timecard_id : Z) (s : Store) : Store :=
  mkStore (timecards s) (map (deactivate_if_timecard timecard_id) (punches s)).

Definition next_punch_id (s : Store) : Z := next_rowid (map p_id (punches s)).

(** [insert into punches(timecard, paid, descr, time_in) values (?, ?,
    ?, current_timestamp)]: [active] defaults to true, [time_out] to
    [NULL].  The [references timecards(id)] clause is not enforced:
    SQLite checks foreign keys only under [PRAGMA foreign_keys = ON],
    which [open_timecard] never issues. *)
Definition new_punch (now timecard_id : Z) (paid : bool) (descr : string) (s : Store) : Punch :=
  mkPunch (next_punch_id s) timecard_id descr paid true now None.

Definition punch_timecard (now timecard_id : Z) (paid : bool) (descr : string) (s : Store) : Store :=
  mkStore (timecards s) (punches s ++ [new_punch now timecard_id paid descr s]).

Definition punch_descr (descr : option string) : string :=
  match descr with
  | None => "Time Worked"
  | Some d => d
  end.

Definition punch_in (env : Env) (timecard_id : Z) (paid : bool) (descr : option string)
  : M (option PunchDict) :=
  require_database (
    let descr := punch_descr descr in
    execute_write (deactivate_old_punches timecard_id) ;;;
    execute_write (punch_timecard (env_now env) timecard_id paid descr) ;;;
    commit ;;;
    punch_id <- get_active_punch_id timecard_id ;;
    get_punch punch_id).

(** [update punches set time_out = current_timestamp, active = false where id = ?] *)
Definition close_if_id (now : Z) (punch_id : option Z) (p : Punch) : Punch :=
  if sql_eq_param punch_id (p_id p)
  then mkPunch (p_id p) (p_timecard p) (p_descr p) (p_paid p) false (p_time_in p) (Some now)
  else p.

Definition punch_timecard_out (now : Z) (punch_id : option Z) (s : Store) : Store :=
  mkStore (timecards s) (map (close_if_id now punch_id) (punches s)).

Definition punch_out (env : Env) (timecard_id : Z) : M (option PunchDict) :=
  require_database (
    punch_id <- get_active_punch_id timecard_id ;;
    (if py_int_truthy punch_id
     then execute_write (punch_timecard_out (env_now env) punch_id) ;;; commit
     else ret tt) ;;;
    get_punch punch_id).

(** ** Marking a timecard reported *)

(** [select * from timecards where id = ?], first row.  The source also
    converts the [created] and [reported] text into datetimes; no claim
    reads them, so the stored row is kept as it is. *)
Definition find_timecard (timecard_id : Z) (s : Store) : option Timecard :=
  fetchone (filter (fun t => Z.eqb (tc_id t) timecard_id) (timecards s)).

Definition get_timecard (timecard_id : Z) : M (option Timecard) :=
  require_database (execute_read (find_timecard timecard_id)).

(** [update timecards set reported = current_timestamp where id = ?] *)
Definition set_reported_if_id (now timecard_id : Z) (t : Timecard) : Timecard :=
  if Z.eqb (tc_id t) timecard_id
  then mkTimecard (tc_id t) (tc_owner t) (tc_descr t) (tc_active t) (tc_created t) (Some now)
  else t.

Definition deactivate_timecard_stmt (now timecard_id : Z) (s : Store) : Store :=
  mkStore (map (set_reported_if_id now timecard_id) (timecards s)) (punches s).

(** [timecard['active']] raises [TypeError] when [timecard] is [None]. *)
Definition mark_timecard_reported (env : Env) (timecard_id : Z) : M bool :=
  require_database (
    timecard <- get_timecard timecard_id ;;
    let result := true in
    match timecard with
    | None => raise TypeError
    | Some t =>
        (if negb (tc_active t)
         then execute_write (deactivate_timecard_stmt (env_now env) timecard_id) ;;; commit
         else ret tt) ;;;
        ret result
    end).

(** ** The paid-time summary *)

(** [rows_to_dicts] followed by [convert_record_to_datetime]: an empty
    result set becomes [None]. *)
Definition rows_to_dicts (rows : list Punch) : option (list PunchDict) :=
  match rows with
  | [] => None
  | _ => Some (map convert_record_to_datetime rows)
  end.

(** [select * from punches where time_out is not null and active =
    false and timecard = ?] *)
Definition completed_row (timecard_id : Z) (p : Punch) : bool :=
  match p_time_out p with Some _ => true | None => false end
  && negb (p_active p) && Z.eqb (p_timecard p) timecard_id.

Definition get_completed_punches_by_timecard (timecard_id : Z) : M (option (list PunchDict)) :=
  require_database (
    rows <- execute_read (fun s => filter (completed_row timecard_id) (punches s)) ;;
    ret (rows_to_dicts rows)).

(** A value of the [report] dict: [{'date': ..., 'hours': ...}]. *)
Record SummaryEntry := mkSummaryEntry {
  se_date : datetime;
  se_hours : timedelta
}.

(** [report] keyed by [date_key], in insertion order as a Python dict. *)
Definition Report := list (Z * SummaryEntry).

Fixpoint report_add (key : Z) (hours : timedelta) (first : datetime) (r : Report) : Report :=
  match r with
  | [] => [(key, mkSummaryEntry first hours)]
  | (k, e) :: rest =>
      if Z.eqb k key
      then (k, mkSummaryEntry (se_date e) (se_hours e + hours)) :: rest
      else (k, e) :: report_add key hours first rest
  end.

(** One iteration of the loop of [get_paid_time_summary]. *)
Definition summary_step (report : Report) (punch : PunchDict) : Report :=
  if negb (pd_paid punch) then report
  else
    let date_key := dt_date (pd_time_in punch) in
    let hours := match pd_time_out punch with
                 | Some out => dt_sub out (pd_time_in punch)
                 | None => dt_sub (pd_time_in punch) (pd_time_in punch)
                 end in
    report_add date_key hours (pd_time_in punch) report.

Definition get_paid_time_summary (timecard_id : Z) : M (option (list SummaryEntry)) :=
  completed_punches <- get_completed_punches_by_timecard timecard_id ;;
  match completed_punches with
  | None => ret None
  | Some ps => ret (Some (map snd (fold_left summary_step ps [])))
  end.

(** ** The long-form duration formatter (src/interface.py) *)

(** [duration.days] and [duration.seconds] of a [timedelta] kept as
    microseconds (Python normalises [0 <= seconds < 86400]). *)
Definition td_days (d : timedelta) : Z := Z.div d 86400000000.
Definition td_seconds (d : timedelta) : Z := Z.div (Z.modulo d 86400000000) 1000000.

(** Python's [//] and [%] by a positive divisor are [Z.div] and [Z.modulo]. *)
Definition format_duration (duration : timedelta) : string :=
  let total_seconds := td_days duration * 86400 + td_seconds duration in
  let duration_hr := Z.div total_seconds 3600 in
  let duration_min := Z.div (Z.modulo total_seconds 3600) 60 in
  let duration_display :=
    if Z.eqb duration_hr 1 then str_Z duration_hr ++ " hr, "
    else str_Z duration_hr ++ " hrs, " in
  if Z.eqb duration_min 1 then duration_display ++ str_Z duration_min ++ " min"
  else duration_display ++ str_Z duration_min ++ " mins".

(** The punch actions of [perform_punch] (src/interface.py); a double
    punch is [punch_out] followed by [punch_in]. *)
Inductive punch_call :=
| CallPunchIn (timecard_id : Z) (paid : bool) (descr : option string)
| CallPunchOut (timecard_id : Z)
| CallDoublePunch (timecard_id : Z) (paid : bool) (descr : option string).

(** The connection after each library call a punch action makes. *)
Definition call_states (env : Env) (k : punch_call) (c : Conn) : list Conn :=
  match k with
  | CallPunchIn tc paid descr => [snd (punch_in env tc paid descr c)]
  | CallPunchOut tc => [snd (punch_out env tc c)]
  | CallDoublePunch tc paid descr =>
      let c1 := snd (punch_out env tc c) in
      [c1; snd (punch_in env tc paid descr c1)]
  end.

Definition last_conn (c : Conn) (cs : list Conn) : Conn := last cs c.

(** The connections observed after every call of a sequence of punch
    actions, each made at its own [env]. *)
Fixpoint punch_trace (c : Conn) (calls : list (Env * punch_call)) : list Conn :=
  match calls with
  | [] => []
  | (env, k) :: rest =>
      let cs := call_states env k c in
      cs ++ punch_trace (last_conn c cs) rest
  end.

(** At most one active punch per timecard. *)
Definition punch_inv (s : Store) : Prop :=
  forall timecard_id, (List.length (active_punches_of timecard_id s) <= 1)%nat.

(** An open connection whose store satisfies [punch_inv]. *)
Definition conn_punch_inv (c : Conn) : Prop :=
  match c with
  | Some s => punch_inv s
  | None => False
  end.

Definition env0 : Env := mkEnv 1000 "alice" 3.

(** The timecard [create_timecard] inserts. *)
Definition new_timecard (env : Env) (owner descr : option string) (s : Store) : Timecard :=
  mkTimecard (next_timecard_id s) (effective_owner env owner) (effective_descr env descr)
    true (env_now env) None.

Example str_Z_examples : str_Z 0 = "0" /\ str_Z 42 = "42" /\ str_Z (-7) = "-7"
                         /\ str_Z 3600 = "3600".
Proof. repeat split; reflexivity. Qed.

Example create_timecard_example :
  fst (create_timecard env0 (Some "bob") None (Some empty_store)) = Ok (Some 1).
Proof. reflexivity. Qed.

(** ** Lemmas on the timecard statements *)

Lemma fold_max_ge (i : Z) (rest : list Z) :
  forall x, In x (i :: rest) -> x <= fold_right Z.max i rest.
Proof.
  induction rest as [|y rest IH]; intros x Hx; simpl in *.
  - destruct Hx as [E|[]]; lia.
  - destruct Hx as [E|[E|Hx]].
    + specialize (IH x (or_introl E)); lia.
    + lia.
    + specialize (IH x (or_intror Hx)); lia.
Qed.

Lemma next_rowid_fresh (ids : list Z) : ~ In (next_rowid ids) ids.
Proof.
  destruct ids as [|i rest]; simpl; [tauto|].
  intros H. pose proof (fold_max_ge i rest _ H) as Hle. lia.
Qed.

Lemma order_by_desc_single {A} (key : A -> Z) (x : A) : order_by_desc key [x] = [x].
Proof. reflexivity. Qed.

Lemma filter_deactivated_nil (o : string) (f : Timecard -> bool) (l : list Timecard) :
  (forall t, f t = true -> tc_owner t = o /\ tc_active t = true) ->
  filter f (map (deactivate_if_owner o) l) = [].
Proof.
  intros Hf. induction l as [|t l IH]; simpl; [reflexivity|].
  unfold deactivate_if_owner at 1.
  destruct (String.eqb (tc_owner t) o) eqn:Eo.
  - destruct (f _) eqn:Ef; [|exact IH].
    apply Hf in Ef. simpl in Ef. destruct Ef as [_ E]. discriminate.
  - destruct (f t) eqn:Ef; [|exact IH].
    apply Hf in Ef. destruct Ef as [E _]. apply String.eqb_neq in Eo. contradiction.
Qed.

Lemma deactivate_if_owner_other (o : string) (t : Timecard) :
  String.eqb (tc_owner t) o = false -> deactivate_if_owner o t = t.
Proof. unfold deactivate_if_owner. intros ->. reflexivity. Qed.

Lemma deactivate_if_owner_owner (o : string) (t : Timecard) :
  tc_owner (deactivate_if_owner o t) = tc_owner t.
Proof. unfold deactivate_if_owner. destruct (String.eqb _ _); reflexivity. Qed.

Lemma not_of_deactivated (o : string) (l : list Timecard) :
  filter (fun t => negb (String.eqb (tc_owner t) o)) (map (deactivate_if_owner o) l) =
  filter (fun t => negb (String.eqb (tc_owner t) o)) l.
Proof.
  induction l as [|t l IH]; cbn [map filter]; [reflexivity|].
  rewrite deactivate_if_owner_owner.
  destruct (String.eqb (tc_owner t) o) eqn:Eo; cbn [negb].
  - exact IH.
  - rewrite deactivate_if_owner_other by exact Eo. f_equal. exact IH.
Qed.

Lemma next_timecard_id_deactivate (o : string) (s : Store) :
  next_timecard_id (deactivate_existing_timecards o s) = next_timecard_id s.
Proof.
  unfold next_timecard_id, deactivate_existing_timecards; cbn [timecards].
  rewrite map_map. f_equal. apply map_ext. intros t.
  unfold deactivate_if_owner. destruct (String.eqb _ _); reflexivity.
Qed.

(** The run of [create_timecard] on an open connection. *)
Lemma create_timecard_run (env : Env) (owner descr : option string) (s : Store) :
  create_timecard env owner descr (Some s) =
  (Ok (Some (next_timecard_id s)),
   Some (create_new_timecard (env_now env) (effective_owner env owner)
           (effective_descr env descr)
           (deactivate_existing_timecards (effective_owner env owner) s))).
Proof.
  unfold create_timecard, require_database, bind, execute_write, commit, execute_read, ret.
  f_equal. f_equal.
  set (o := effective_owner env owner). set (d := effective_descr env descr).
  unfold retrieve_created_timecard, create_new_timecard, deactivate_existing_timecards.
  cbn [timecards]. rewrite filter_app.
  rewrite filter_deactivated_nil.
  - cbn [filter tc_owner tc_descr tc_active app].
    rewrite String.eqb_refl, String.eqb_refl. cbn.
    apply (f_equal (fun x => Some x)), (next_timecard_id_deactivate o s).
  - intros t Ht. apply andb_prop in Ht as [Ht Ha]. apply andb_prop in Ht as [Ho _].
    apply String.eqb_eq in Ho. auto.
Qed.

Lemma create_timecard_store (env : Env) (owner descr : option string) (s : Store) :
  create_new_timecard (env_now env) (effective_owner env owner) (effective_descr env descr)
    (deactivate_existing_timecards (effective_owner env owner) s) =
  mkStore (map (deactivate_if_owner (effective_owner env owner)) (timecards s)
           ++ [new_timecard env owner descr s]) (punches s).
Proof.
  unfold create_new_timecard, new_timecard.
  rewrite next_timecard_id_deactivate. reflexivity.
Qed.

(** ** C1: creating a timecard *)

(** Claim C1 as stated: an owner given as the empty string is replaced
    by the system user name, so after [create_timecard (Some "") None]
    no timecard whose owner field is [""] is active; the new timecard
    belongs to ["alice"], the user of [env0]. *)
Lemma create_timecard_empty_owner_counterexample :
  match create_timecard env0 (Some "") None (Some empty_store) with
  | (Ok (Some 1), Some s') =>
      active_timecards_of "" s' = [] /\ map tc_owner (active_timecards_of "alice" s') = ["alice"]
  | _ => False
  end.
Proof. vm_compute. split; reflexivity. Qed.

(** C1 (amended): for the owner the call stores (the given owner when it
    is a non-empty string, the system user name otherwise), after
    [create_timecard] exactly one timecard of that owner is active: the
    one the call inserted, with a fresh id, and that id is returned;
    the timecards of every other owner and all punches are unchanged. *)
Theorem create_timecard_single_active (env : Env) (owner descr : option string) (s : Store) :
  let o := effective_owner env owner in
  let t := new_timecard env owner descr s in
  exists s',
    create_timecard env owner descr (Some s) = (Ok (Some (tc_id t)), Some s') /\
    active_timecards_of o s' = [t] /\
    ~ In (tc_id t) (map tc_id (timecards s)) /\
    tc_owner t = o /\
    timecards_not_of o s' = timecards_not_of o s /\
    punches s' = punches s.
Proof.
  intros o t.
  rewrite create_timecard_run, create_timecard_store.
  eexists. split; [reflexivity|].
  unfold active_timecards_of, timecards_not_of. cbn [timecards punches].
  rewrite !filter_app.
  repeat split.
  - rewrite filter_deactivated_nil.
    + cbn. subst t o. unfold new_timecard. cbn. rewrite String.eqb_refl. reflexivity.
    + intros u Hu. apply andb_prop in Hu as [Ho Ha]. apply String.eqb_eq in Ho. auto.
  - apply next_rowid_fresh.
  - rewrite not_of_deactivated. subst t o. unfold new_timecard. cbn.
    rewrite String.eqb_refl. cbn. apply app_nil_r.
Qed.

(** ** Lemmas on the punch statements *)

Example punch_in_example :
  match punch_in env0 1 true None (Some empty_store) with
  | (Ok (Some pd), Some s') =>
      pd_id pd = 1 /\ pd_active pd = true /\ List.length (punches s') = 1%nat
  | _ => False
  end.
Proof. vm_compute. auto. Qed.

Lemma punch_in_state (env : Env) (tc : Z) (paid : bool) (descr : option string) (s : Store) :
  snd (punch_in env tc paid descr (Some s)) =
  Some (punch_timecard (env_now env) tc paid (punch_descr descr) (deactivate_old_punches tc s)).
Proof. reflexivity. Qed.

(** The id [get_active_punch_id] reads from a store. *)
Definition active_punch_id (tc : Z) (s : Store) : option Z :=
  option_map p_id (fetchone (order_by_desc p_time_in (active_punches_of tc s))).

Lemma get_active_punch_id_run (tc : Z) (s : Store) :
  get_active_punch_id tc (Some s) = (Ok (active_punch_id tc s), Some s).
Proof. reflexivity. Qed.

Lemma punch_out_run (env : Env) (tc : Z) (s : Store) :
  let pid := active_punch_id tc s in
  let s' := if py_int_truthy pid then punch_timecard_out (env_now env) pid s else s in
  punch_out env tc (Some s) =
  (Ok (option_map convert_record_to_datetime
         (fetchone (filter (fun p => sql_eq_param pid (p_id p)) (punches s')))),
   Some s').
Proof.
  intros pid s'. subst s'.
  unfold punch_out. cbv [require_database]. unfold bind at 1.
  rewrite get_active_punch_id_run. fold pid.
  destruct (py_int_truthy pid); reflexivity.
Qed.

Lemma count_active_map (f : Punch -> Punch) (tc : Z) (l : list Punch) :
  (forall p, p_timecard (f p) = p_timecard p /\ (p_active (f p) = true -> p_active p = true)) ->
  (List.length (filter (fun p => Z.eqb (p_timecard p) tc && p_active p) (map f l))
   <= List.length (filter (fun p => Z.eqb (p_timecard p) tc && p_active p) l))%nat.
Proof.
  intros Hf. induction l as [|p l IH]; cbn [map filter]; [lia|].
  destruct (Hf p) as [Ht Ha]. rewrite Ht.
  destruct (Z.eqb (p_timecard p) tc); cbn [andb];
    destruct (p_active (f p)) eqn:E1; destruct (p_active p) eqn:E2; cbn [List.length];
    try lia; specialize (Ha eq_refl); discriminate.
Qed.

Lemma deactivate_if_timecard_props (tc : Z) (p : Punch) :
  p_timecard (deactivate_if_timecard tc p) = p_timecard p /\
  (p_active (deactivate_if_timecard tc p) = true -> p_active p = true).
Proof.
  unfold deactivate_if_timecard.
  destruct (Z.eqb _ _); cbn; split; try reflexivity; intros H; [discriminate | exact H].
Qed.

Lemma close_if_id_props (now : Z) (pid : option Z) (p : Punch) :
  p_timecard (close_if_id now pid p) = p_timecard p /\
  (p_active (close_if_id now pid p) = true -> p_active p = true).
Proof.
  unfold close_if_id.
  destruct (sql_eq_param _ _); cbn; split; try reflexivity; intros H; [discriminate | exact H].
Qed.

Lemma deactivated_no_active (tc : Z) (l : list Punch) :
  filter (fun p => Z.eqb (p_timecard p) tc && p_active p)
    (map (deactivate_if_timecard tc) l) = [].
Proof.
  induction l as [|p l IH]; cbn [map filter]; [reflexivity|].
  destruct (deactivate_if_timecard_props tc p) as [Ht _]. rewrite Ht.
  destruct (Z.eqb (p_timecard p) tc) eqn:E; cbn [andb]; [|exact IH].
  unfold deactivate_if_timecard at 1. rewrite E. exact IH.
Qed.

Lemma punch_in_active (env : Env) (tc : Z) (paid : bool) (descr : option string) (s : Store) :
  active_punches_of tc
    (punch_timecard (env_now env) tc paid (punch_descr descr) (deactivate_old_punches tc s)) =
  [new_punch (env_now env) tc paid (punch_descr descr) (deactivate_old_punches tc s)].
Proof.
  unfold active_punches_of, punch_timecard, deactivate_old_punches. cbn [punches].
  rewrite filter_app, deactivated_no_active. cbn. rewrite Z.eqb_refl. reflexivity.
Qed.

Lemma punch_in_preserves_inv (env : Env) (tc : Z) (paid : bool) (descr : option string) (c : Conn) :
  conn_punch_inv c -> conn_punch_inv (snd (punch_in env tc paid descr c)).
Proof.
  destruct c as [s|]; [|intros []].
  intros Hinv. rewrite punch_in_state. intros tc'.
  destruct (Z.eq_dec tc' tc) as [->|Hne].
  - rewrite punch_in_active. cbn. lia.
  - unfold active_punches_of, punch_timecard, deactivate_old_punches. cbn [punches].
    rewrite filter_app, length_app. cbn [filter p_timecard new_punch].
    apply Z.eqb_neq in Hne. rewrite Z.eqb_sym, Hne. cbn [andb List.length].
    pose proof (count_active_map (deactivate_if_timecard tc) tc' (punches s)
                  (deactivate_if_timecard_props tc)) as H.
    specialize (Hinv tc'). unfold active_punches_of in Hinv. lia.
Qed.

Lemma punch_out_preserves_inv (env : Env) (tc : Z) (c : Conn) :
  conn_punch_inv c -> conn_punch_inv (snd (punch_out env tc c)).
Proof.
  destruct c as [s|]; [|intros []].
  intros Hinv. rewrite punch_out_run. cbn [snd conn_punch_inv].
  destruct (py_int_truthy _); [|exact Hinv].
  intros tc'. unfold active_punches_of, punch_timecard_out. cbn [punches].
  pose proof (count_active_map (close_if_id (env_now env) (active_punch_id tc s)) tc'
                (punches s) (close_if_id_props _ _)) as H.
  specialize (Hinv tc'). unfold active_punches_of in Hinv. lia.
Qed.

Lemma call_states_inv (env : Env) (k : punch_call) (c : Conn) :
  conn_punch_inv c ->
  Forall conn_punch_inv (call_states env k c) /\
  conn_punch_inv (last_conn c (call_states env k c)).
Proof.
  intros H. destruct k as [tc paid descr|tc|tc paid descr]; cbn [call_states last_conn last].
  - pose proof (punch_in_preserves_inv env tc paid descr c H). auto.
  - pose proof (punch_out_preserves_inv env tc c H). auto.
  - pose proof (punch_out_preserves_inv env tc c H) as H1.
    pose proof (punch_in_preserves_inv env tc paid descr _ H1). auto.
Qed.

Lemma punch_trace_inv (calls : list (Env * punch_call)) :
  forall c, conn_punch_inv c -> Forall conn_punch_inv (punch_trace c calls).
Proof.
  induction calls as [|[env k] rest IH]; intros c H; cbn [punch_trace]; [constructor|].
  destruct (call_states_inv env k c H) as [Hall Hlast].
  apply Forall_app. split; [exact Hall|]. apply IH, Hlast.
Qed.

(** ** C2: at most one active punch per timecard *)

(** C2: starting from a store where every timecard has at most one
    active punch (a fresh store does), after every call of any sequence
    of punch-in, punch-out and double-punch actions the connection is
    open and every timecard still has at most one active punch. *)
Theorem punch_calls_keep_one_active (s : Store) (calls : list (Env * punch_call)) :
  punch_inv s -> Forall conn_punch_inv (punch_trace (Some s) calls).
Proof. intros H. apply punch_trace_inv. exact H. Qed.

Definition punch_calls0 : list (Env * punch_call) :=
  [(mkEnv 100 "alice" 3, CallPunchIn 1 true None);
   (mkEnv 200 "alice" 3, CallDoublePunch 1 false (Some "Lunch"));
   (mkEnv 300 "alice" 3, CallPunchIn 1 true None);
   (mkEnv 400 "alice" 3, CallPunchOut 1)].

Lemma punch_calls_keep_one_active_witness :
  punch_inv empty_store /\ Forall conn_punch_inv (punch_trace (Some empty_store) punch_calls0).
Proof.
  assert (H : punch_inv empty_store) by (intros tc; cbn; lia).
  split; [exact H | apply (punch_calls_keep_one_active empty_store punch_calls0 H)].
Defined.

Lemma get_punch_none_rows (l : list Punch) :
  filter (fun p => sql_eq_param None (p_id p)) l = [].
Proof. induction l as [|p l IH]; [reflexivity|exact IH]. Qed.

(** ** C8: punching out with no active punch *)

(** C8: when no punch of the timecard is active, [punch_out] returns
    [None] and leaves the store (every punch and timecard) unchanged. *)
Theorem punch_out_no_active (env : Env) (tc : Z) (s : Store) :
  (forall p, In p (punches s) -> p_timecard p = tc -> p_active p = false) ->
  punch_out env tc (Some s) = (Ok None, Some s).
Proof.
  intros H. rewrite punch_out_run.
  assert (E : active_punches_of tc s = []).
  { unfold active_punches_of. induction (punches s) as [|p l IH]; cbn [filter]; [reflexivity|].
    destruct (Z.eqb (p_timecard p) tc) eqn:Et; cbn [andb].
    - apply Z.eqb_eq in Et. rewrite (H p (or_introl eq_refl) Et). apply IH.
      intros q Hq. apply H. right. exact Hq.
    - apply IH. intros q Hq. apply H. right. exact Hq. }
  unfold active_punch_id. rewrite E. cbn. rewrite get_punch_none_rows. reflexivity.
Qed.

Definition store_one_closed : Store :=
  mkStore [mkTimecard 1 "alice" "Week 3" true 0 None]
          [mkPunch 1 1 "Time Worked" true false 100 (Some 200)].

Lemma punch_out_no_active_witness :
  (forall p, In p (punches store_one_closed) -> p_timecard p = 1 -> p_active p = false) /\
  punch_out env0 1 (Some store_one_closed) = (Ok None, Some store_one_closed).
Proof.
  assert (H : forall p, In p (punches store_one_closed) -> p_timecard p = 1 -> p_active p = false).
  { intros p [<-|[]] _. reflexivity. }
  split; [exact H | apply (punch_out_no_active env0 1 store_one_closed H)].
Defined.

(** ** C7: punching in on a timecard id with no record *)

Lemma filter_fresh_id (i : Z) (l : list Punch) :
  ~ In i (map p_id l) -> filter (fun q => sql_eq_param (Some i) (p_id q)) l = [].
Proof.
  induction l as [|q l IH]; intros Hn; cbn [filter]; [reflexivity|].
  cbn [sql_eq_param]. destruct (Z.eqb i (p_id q)) eqn:E.
  - apply Z.eqb_eq in E. exfalso. apply Hn. left. symmetry. exact E.
  - apply IH. intros Hi. apply Hn. right. exact Hi.
Qed.

Lemma punch_in_run (env : Env) (tc : Z) (paid : bool) (descr : option string) (s : Store) :
  let s1 := deactivate_old_punches tc s in
  let p := new_punch (env_now env) tc paid (punch_descr descr) s1 in
  punch_in env tc paid descr (Some s) =
  (Ok (Some (convert_record_to_datetime p)),
   Some (punch_timecard (env_now env) tc paid (punch_descr descr) s1)).
Proof.
  intros s1 p.
  unfold punch_in. cbv [require_database]. unfold bind at 1 2 3. cbn [execute_write commit execute_read].
  unfold bind at 1. rewrite get_active_punch_id_run.
  unfold active_punch_id. subst s1. rewrite punch_in_active. cbn [order_by_desc fold_left insert_desc
    fetchone hd_error option_map].
  unfold get_punch, require_database, bind, execute_read, ret.
  unfold punch_timecard at 1. cbn [punches]. rewrite filter_app.
  rewrite filter_fresh_id.
  - cbn. rewrite Z.eqb_refl. reflexivity.
  - unfold new_punch, next_punch_id. cbn [p_id]. apply next_rowid_fresh.
Qed.

(** C7 as stated: timecard 5 has no record in [store_one_closed], yet
    [punch_in] on it does not fail: it records a second punch, for
    timecard 5, and returns it. *)
Lemma punch_in_missing_timecard_counterexample :
  ~ In 5 (map tc_id (timecards store_one_closed)) /\
  match punch_in env0 5 true None (Some store_one_closed) with
  | (Ok (Some pd), Some s') =>
      pd_timecard pd = 5 /\ pd_active pd = true /\ List.length (punches s') = 2%nat
  | _ => False
  end.
Proof.
  split.
  - cbn. intros [E|[]]. discriminate.
  - vm_compute. auto.
Qed.

(** C7 (amended): [punch_in] does not check that the timecard exists.
    For every timecard id, with or without a timecard record, it
    deactivates that id's punches, records a new active punch for the id
    (time in = now, no time out, a fresh id) and returns that punch. *)
Theorem punch_in_records_without_check (env : Env) (tc : Z) (paid : bool)
    (descr : option string) (s : Store) :
  exists pd s',
    punch_in env tc paid descr (Some s) = (Ok (Some pd), Some s') /\
    pd_timecard pd = tc /\ pd_active pd = true /\ pd_time_out pd = None /\
    ~ In (pd_id pd) (map p_id (punches s)) /\
    punches s' = (map (deactivate_if_timecard tc) (punches s) ++
                  [mkPunch (pd_id pd) tc (punch_descr descr) paid true (env_now env) None])%list.
Proof.
  rewrite punch_in_run. eexists. eexists. split; [reflexivity|].
  cbn. repeat split.
  unfold next_punch_id, deactivate_old_punches. cbn [punches].
  replace (map p_id (map (deactivate_if_timecard tc) (punches s))) with (map p_id (punches s)).
  - apply next_rowid_fresh.
  - rewrite map_map. apply map_ext. intros q. unfold deactivate_if_timecard.
    destruct (Z.eqb _ _); reflexivity.
Qed.

(** ** C5, C6, C10: marking a timecard reported *)

Lemma mark_timecard_reported_run (env : Env) (tc : Z) (s : Store) :
  mark_timecard_reported env tc (Some s) =
  match find_timecard tc s with
  | None => (Err TypeError, Some s)
  | Some t =>
      (Ok true, Some (if tc_active t then s else deactivate_timecard_stmt (env_now env) tc s))
  end.
Proof.
  unfold mark_timecard_reported, get_timecard, require_database, bind, execute_read.
  destruct (find_timecard tc s) as [t|]; [|reflexivity].
  destruct (tc_active t); reflexivity.
Qed.

(** A timecard row with its [reported] field left out. *)
Definition without_reported (t : Timecard) : Z * string * string * bool * Z :=
  (tc_id t, tc_owner t, tc_descr t, tc_active t, tc_created t).

Lemma find_timecard_none (tc : Z) (s : Store) :
  ~ In tc (map tc_id (timecards s)) -> find_timecard tc s = None.
Proof.
  unfold find_timecard. induction (timecards s) as [|t l IH]; intros Hn; [reflexivity|].
  cbn [filter]. destruct (Z.eqb (tc_id t) tc) eqn:E.
  - apply Z.eqb_eq in E. exfalso. apply Hn. left. exact E.
  - apply IH. intros Hi. apply Hn. right. exact Hi.
Qed.

Lemma find_timecard_some (tc : Z) (s : Store) :
  In tc (map tc_id (timecards s)) -> exists t, find_timecard tc s = Some t.
Proof.
  unfold find_timecard. induction (timecards s) as [|t l IH]; intros Hi; [destruct Hi|].
  cbn [filter]. destruct (Z.eqb (tc_id t) tc) eqn:E.
  - exists t. reflexivity.
  - apply IH. destruct Hi as [Hi|Hi]; [|exact Hi].
    apply Z.eqb_neq in E. contradiction.
Qed.

(** C5: for an existing timecard, [mark_timecard_reported] leaves the
    store unchanged when the timecard read is active; when it is
    inactive, the only change is the [reported] field, set to the
    current instant, of the rows with that id. *)
Theorem mark_reported_only_when_inactive (env : Env) (tc : Z) (s : Store) (t : Timecard) :
  find_timecard tc s = Some t ->
  exists s',
    snd (mark_timecard_reported env tc (Some s)) = Some s' /\
    (tc_active t = true -> s' = s) /\
    (tc_active t = false ->
       punches s' = punches s /\
       map without_reported (timecards s') = map without_reported (timecards s) /\
       (forall u, In u (timecards s') -> tc_id u = tc -> tc_reported u = Some (env_now env)) /\
       (forall u, In u (timecards s') -> tc_id u <> tc -> In u (timecards s))).
Proof.
  intros Hf. rewrite mark_timecard_reported_run, Hf. eexists. split; [reflexivity|].
  split.
  - intros ->. reflexivity.
  - intros ->. unfold deactivate_timecard_stmt. cbn [punches timecards].
    split; [reflexivity|]. split; [|split].
    + rewrite map_map. apply map_ext. intros u. unfold set_reported_if_id.
      destruct (Z.eqb _ _); reflexivity.
    + intros u Hu Hid. apply in_map_iff in Hu as [v [<- _]].
      unfold set_reported_if_id in *. destruct (Z.eqb (tc_id v) tc) eqn:E; [reflexivity|].
      apply Z.eqb_neq in E. contradiction.
    + intros u Hu Hid. apply in_map_iff in Hu as [v [<- Hv]].
      unfold set_reported_if_id in *. destruct (Z.eqb (tc_id v) tc) eqn:E; [|exact Hv].
      apply Z.eqb_eq in E. contradiction.
Qed.

Definition store_active_card : Store :=
  mkStore [mkTimecard 1 "alice" "Week 3" true 0 None] [].

Lemma mark_reported_only_when_inactive_witness :
  find_timecard 1 store_active_card = Some (mkTimecard 1 "alice" "Week 3" true 0 None) /\
  exists s',
    snd (mark_timecard_reported env0 1 (Some store_active_card)) = Some s' /\
    (tc_active (mkTimecard 1 "alice" "Week 3" true 0 None) = true -> s' = store_active_card) /\
    (tc_active (mkTimecard 1 "alice" "Week 3" true 0 None) = false ->
       punches s' = punches store_active_card /\
       map without_reported (timecards s') = map without_reported (timecards store_active_card) /\
       (forall u, In u (timecards s') -> tc_id u = 1 -> tc_reported u = Some (env_now env0)) /\
       (forall u, In u (timecards s') -> tc_id u <> 1 -> In u (timecards store_active_card))).
Proof.
  assert (H : find_timecard 1 store_active_card = Some (mkTimecard 1 "alice" "Week 3" true 0 None))
    by reflexivity.
  split; [exact H | apply (mark_reported_only_when_inactive env0 1 store_active_card _ H)].
Defined.

(** C6: for an existing timecard, [mark_timecard_reported] returns
    [True], whether or not it wrote [reported]. *)
Theorem mark_reported_returns_true (env : Env) (tc : Z) (s : Store) :
  In tc (map tc_id (timecards s)) ->
  fst (mark_timecard_reported env tc (Some s)) = Ok true.
Proof.
  intros Hi. destruct (find_timecard_some tc s Hi) as [t Ht].
  rewrite mark_timecard_reported_run, Ht. reflexivity.
Qed.

Lemma mark_reported_returns_true_witness :
  In 1 (map tc_id (timecards store_active_card)) /\
  fst (mark_timecard_reported env0 1 (Some store_active_card)) = Ok true.
Proof.
  assert (H : In 1 (map tc_id (timecards store_active_card))) by (left; reflexivity).
  split; [exact H | apply (mark_reported_returns_true env0 1 store_active_card H)].
Defined.

(** C10: for a timecard id with no record, [mark_timecard_reported]
    returns no boolean: reading [timecard['active']] of the [None] that
    [get_timecard] returned raises [TypeError], and nothing is written. *)
Theorem mark_reported_missing_raises (env : Env) (tc : Z) (s : Store) :
  ~ In tc (map tc_id (timecards s)) ->
  mark_timecard_reported env tc (Some s) = (Err TypeError, Some s).
Proof.
  intros Hn. rewrite mark_timecard_reported_run, find_timecard_none by exact Hn. reflexivity.
Qed.

Lemma mark_reported_missing_raises_witness :
  ~ In 7 (map tc_id (timecards store_active_card)) /\
  mark_timecard_reported env0 7 (Some store_active_card) = (Err TypeError, Some store_active_card).
Proof.
  assert (H : ~ In 7 (map tc_id (timecards store_active_card))).
  { cbn. intros [E|[]]. discriminate. }
  split; [exact H | apply (mark_reported_missing_raises env0 7 store_active_card H)].
Defined.

(** ** C9: the long-form formatter on zero and negative durations *)

Example format_duration_examples :
  format_duration (3660 * 1000000) = "1 hr, 1 min" /\
  format_duration (9000 * 1000000) = "2 hrs, 30 mins" /\
  format_duration 0 = "0 hrs, 0 mins".
Proof. vm_compute. auto. Qed.

(** C9 as stated: minus one second renders as ["-1 hrs, 59 mins"]. *)
Lemma format_duration_negative_counterexample :
  format_duration (-1000000) = "-1 hrs, 59 mins" /\
  format_duration (-1000000) <> "0 hrs, 0 mins".
Proof. split; [vm_compute; reflexivity | vm_compute; discriminate]. Qed.

Lemma total_seconds_floor (d : timedelta) :
  td_days d * 86400 + td_seconds d = Z.div d 1000000.
Proof.
  unfold td_days, td_seconds.
  rewrite (Z.div_mod d 86400000000) at 3 by lia.
  replace (86400000000 * (d / 86400000000)) with ((d / 86400000000 * 86400) * 1000000) by lia.
  rewrite Z.div_add_l by lia. reflexivity.
Qed.

(** C9 (amended): a zero duration, and any non-negative one under a
    minute, renders as ["0 hrs, 0 mins"]; a negative duration is not
    clamped: its hours are floored below zero and the text starts with
    ["-"] (minus one second gives ["-1 hrs, 59 mins"]). *)
Theorem format_duration_zero_and_negative (d : timedelta) :
  (0 <= d < 60000000 -> format_duration d = "0 hrs, 0 mins") /\
  (d < 0 -> exists rest, format_duration d = "-" ++ rest).
Proof.
  unfold format_duration. rewrite total_seconds_floor. split.
  - intros Hd.
    assert (Ht : 0 <= d / 1000000 < 60) by (split; [apply Z.div_pos | apply Z.div_lt_upper_bound]; lia).
    rewrite (Z.div_small (d / 1000000) 3600) by lia.
    rewrite (Z.mod_small (d / 1000000) 3600) by lia.
    rewrite (Z.div_small (d / 1000000) 60) by lia.
    reflexivity.
  - intros Hd.
    assert (Hh : d / 1000000 / 3600 < 0).
    { apply Z.div_lt_upper_bound; [lia|]. assert (d / 1000000 < 0) by (apply Z.div_lt_upper_bound; lia). lia. }
    replace (Z.eqb (d / 1000000 / 3600) 1) with false by (symmetry; apply Z.eqb_neq; lia).
    replace (str_Z (d / 1000000 / 3600)) with ("-" ++ str_nonneg (- (d / 1000000 / 3600)))
      by (unfold str_Z; replace (d / 1000000 / 3600 <? 0) with true
            by (symmetry; apply Z.ltb_lt; lia); reflexivity).
    destruct (Z.eqb _ 1); eexists; reflexivity.
Qed.

(** ** C3: what the paid-time summary adds up *)

(** Paid, completed punches of a timecard. *)
Definition paid_completed (tc : Z) (p : Punch) : bool := completed_row tc p && p_paid p.

(** [time_out - time_in] of a stored punch. *)
Definition punch_duration (p : Punch) : timedelta :=
  match p_time_out p with
  | Some out => (out - p_time_in p) * 1000000
  | None => 0
  end.

Definition paid_completed_total (tc : Z) (s : Store) : timedelta :=
  fold_right Z.add 0 (map punch_duration (filter (paid_completed tc) (punches s))).

Definition summary_entries (r : option (list SummaryEntry)) : list SummaryEntry :=
  match r with
  | None => []
  | Some l => l
  end.

Definition sum_hours (l : list SummaryEntry) : timedelta := fold_right Z.add 0 (map se_hours l).

(** What one punch adds to the report. *)
Definition step_hours (pd : PunchDict) : timedelta :=
  if pd_paid pd then
    match pd_time_out pd with
    | Some out => dt_sub out (pd_time_in pd)
    | None => dt_sub (pd_time_in pd) (pd_time_in pd)
    end
  else 0.

Lemma fold_summary_paid (l : list PunchDict) :
  forall r, fold_left summary_step l r = fold_left summary_step (filter pd_paid l) r.
Proof.
  induction l as [|pd l IH]; intros r; cbn [fold_left filter]; [reflexivity|].
  destruct (pd_paid pd) eqn:E; cbn [fold_left]; rewrite IH; [reflexivity|].
  unfold summary_step at 2. rewrite E. reflexivity.
Qed.

Lemma filter_paid_convert (l : list Punch) :
  filter pd_paid (map convert_record_to_datetime l) = map convert_record_to_datetime (filter p_paid l).
Proof.
  induction l as [|p l IH]; cbn; [reflexivity|].
  destruct (p_paid p); cbn; rewrite IH; reflexivity.
Qed.

Lemma filter_paid_completed (tc : Z) (l : list Punch) :
  filter p_paid (filter (completed_row tc) l) = filter (paid_completed tc) l.
Proof.
  induction l as [|p l IH]; cbn; [reflexivity|].
  unfold paid_completed at 1.
  destruct (completed_row tc p); cbn; [destruct (p_paid p); cbn|]; rewrite IH; reflexivity.
Qed.

Lemma sum_report_add (key : Z) (h : timedelta) (first : datetime) (r : Report) :
  sum_hours (map snd (report_add key h first r)) = sum_hours (map snd r) + h.
Proof.
  unfold sum_hours. induction r as [|[k e] rest IH]; cbn; [lia|].
  destruct (Z.eqb k key); cbn; [lia|]. rewrite IH. lia.
Qed.

Lemma sum_fold_summary (l : list PunchDict) :
  forall r, sum_hours (map snd (fold_left summary_step l r))
            = sum_hours (map snd r) + fold_right Z.add 0 (map step_hours l).
Proof.
  induction l as [|pd l IH]; intros r; cbn [fold_left map fold_right]; [lia|].
  rewrite IH. unfold summary_step, step_hours.
  destruct (pd_paid pd); cbn [negb]; [rewrite sum_report_add|]; lia.
Qed.

Lemma step_hours_paid_completed (tc : Z) (l : list Punch) :
  map step_hours (map convert_record_to_datetime (filter (paid_completed tc) l)) =
  map punch_duration (filter (paid_completed tc) l).
Proof.
  induction l as [|p l IH]; cbn; [reflexivity|].
  destruct (paid_completed tc p) eqn:E; [|exact IH].
  cbn. rewrite IH. f_equal.
  unfold paid_completed, completed_row in E.
  destruct (p_time_out p) as [out|] eqn:Eo; [|discriminate].
  apply andb_prop in E as [_ Ep].
  unfold step_hours, punch_duration, dt_sub. cbn. rewrite Ep, Eo. cbn. lia.
Qed.

Lemma paid_completed_sub (tc : Z) (l : list Punch) :
  filter (completed_row tc) l = [] -> filter (paid_completed tc) l = [].
Proof.
  intros H. rewrite <- filter_paid_completed, H. reflexivity.
Qed.

(** C3: [get_paid_time_summary] builds its report from the paid,
    completed punches of the timecard alone (a punch that is unpaid,
    still active or has no time out contributes nothing), and the
    per-day totals it returns ([None] counting as no entries) add up to
    the sum of [time_out - time_in] over exactly those punches. *)
Theorem paid_summary_total (tc : Z) (s : Store) :
  exists res,
    get_paid_time_summary tc (Some s) = (Ok res, Some s) /\
    summary_entries res =
      map snd (fold_left summary_step
                 (map convert_record_to_datetime (filter (paid_completed tc) (punches s))) []) /\
    sum_hours (summary_entries res) = paid_completed_total tc s.
Proof.
  unfold get_paid_time_summary, get_completed_punches_by_timecard,
    require_database, bind, execute_read, ret.
  destruct (filter (completed_row tc) (punches s)) as [|q qs] eqn:Ec;
    cbv beta iota delta [rows_to_dicts]; eexists; (split; [reflexivity|]);
    cbn [summary_entries].
  - unfold paid_completed_total. rewrite (paid_completed_sub tc _ Ec). split; reflexivity.
  - change (fold_left summary_step (map convert_record_to_datetime qs)
              (summary_step [] (convert_record_to_datetime q)))
      with (fold_left summary_step (map convert_record_to_datetime (q :: qs)) []).
    rewrite <- Ec, fold_summary_paid, filter_paid_convert, filter_paid_completed.
    split; [reflexivity|].
    rewrite sum_fold_summary, step_hours_paid_completed. reflexivity.
Qed.

(** ** C4: the day a punch is grouped under *)

(** Grouping key of the spec: the calendar day of [time_in] read in
    the local (display) zone, of UTC offset [local] seconds, as
    [astimezone()] gives it in src/interface.py. *)
Definition spec_local_date_key (local : Z) (pd : PunchDict) : Z :=
  dt_date (astimezone local (pd_time_in pd)).

(** The distinct local days of the paid, completed punches. *)
Definition spec_local_date_keys (local tc : Z) (s : Store) : list Z :=
  nodup Z.eq_dec (map (spec_local_date_key local)
    (map convert_record_to_datetime (filter (paid_completed tc) (punches s)))).

(** Two paid, completed one-hour punches of timecard 1, at 00:00 and
    20:00 UTC on 1970-01-01. *)
Definition store_two_days : Store :=
  mkStore [mkTimecard 1 "alice" "Week 1" true 0 None]
          [mkPunch 1 1 "Time Worked" true false 0 (Some 3600);
           mkPunch 2 1 "Time Worked" true false 72000 (Some 75600)].

(** C4, on a machine at UTC-5: the two punches fall on two local days
    (1969-12-31 19:00 and 1970-01-01 15:00), but [get_paid_time_summary]
    keys its report by [time_in.date()] of the UTC datetime that
    [sqlite_ts_to_datetime] builds, so it returns a single entry, for
    the UTC day 1970-01-01, holding both hours. *)
Theorem paid_summary_groups_by_utc_day :
  match get_paid_time_summary 1 (Some store_two_days) with
  | (Ok (Some entries), _) =>
      map (fun e => dt_date (se_date e)) entries = [0] /\
      map se_hours entries = [7200 * 1000000] /\
      spec_local_date_keys (-18000) 1 store_two_days = [-1; 0]
  | _ => False
  end.
Proof. vm_compute. auto. Qed.

(** * The rest of the record store, and the CLI layer that drives it *)

(** ** [finalize_timecard]: [update timecards set active = false where id = ?] *)

Definition finalize_if_id (timecard_id : Z) (t : Timecard) : Timecard :=
  if Z.eqb (tc_id t) timecard_id
  then mkTimecard (tc_id t) (tc_owner t) (tc_descr t) false (tc_created t) (tc_reported t)
  else t.

Definition finalize_timecard (timecard_id : Z) : M unit :=
  require_database (
    execute_write (fun s => mkStore (map (finalize_if_id timecard_id) (timecards s)) (punches s)) ;;;
    commit).

(** ** Timecard listings

    The four listing functions hand [rows_to_dicts] the cursor that
    [self.db.execute] returns, not a [fetchall()] list.  A [sqlite3.Cursor]
    is always truthy, so [if not rows] never fires for them and an empty
    result is [[]]; the punch queries pass a [fetchall()] list, for which
    an empty result becomes [None]. *)
Inductive rows_value (A : Type) :=
| FetchedList (l : list A)
| CursorOf (l : list A).
Arguments FetchedList {A} l.
Arguments CursorOf {A} l.

Definition rows_value_truthy {A} (rv : rows_value A) : bool :=
  match rv with
  | FetchedList [] => false
  | FetchedList _ => true
  | CursorOf _ => true
  end.

Definition rows_of {A} (rv : rows_value A) : list A :=
  match rv with FetchedList l => l | CursorOf l => l end.

(** [rows_to_dicts] on timecard rows (the timestamp conversion touches
    only [created] and [reported]; the rows are kept as stored). *)
Definition timecard_rows_to_dicts (rv : rows_value Timecard) : option (list Timecard) :=
  if rows_value_truthy rv then Some (rows_of rv) else None.

Definition select_timecards (pred : Timecard -> bool) : M (option (list Timecard)) :=
  require_database (
    timecards <- execute_read (fun s => CursorOf (filter pred (timecards s))) ;;
    ret (timecard_rows_to_dicts timecards)).

(** [select * from timecards] *)
Definition get_all_timecards : M (option (list Timecard)) :=
  select_timecards (fun _ => true).

(** [select * from timecards where owner = ?] *)
Definition get_all_timecards_by_owner (owner : string) : M (option (list Timecard)) :=
  select_timecards (fun t => String.eqb (tc_owner t) owner).

(** [select * from timecards where active = ?] *)
Definition get_active_timecards (active : bool) : M (option (list Timecard)) :=
  select_timecards (fun t => Bool.eqb (tc_active t) active).

(** [select * from timecards where owner = ? and active = ?] *)
Definition get_active_timecards_by_owner (owner : string) (active : bool)
  : M (option (list Timecard)) :=
  select_timecards (fun t => String.eqb (tc_owner t) owner && Bool.eqb (tc_active t) active).

(** ** Punch queries *)

(** [select * from punches where timecard = ?], [fetchall()] *)
Definition get_punches_by_timecard (timecard_id : Z) : M (option (list PunchDict)) :=
  require_database (
    punches <- execute_read (fun s => filter (fun p => Z.eqb (p_timecard p) timecard_id)
                                              (punches s)) ;;
    ret (rows_to_dicts punches)).

(** [select * from punches where timecard = ? order by time_in desc limit 1] *)
Definition last_punch_of (timecard_id : Z) (s : Store) : option Punch :=
  fetchone (order_by_desc p_time_in
              (filter (fun p => Z.eqb (p_timecard p) timecard_id) (punches s))).

Definition get_last_punch_by_timecard (timecard_id : Z) : M (option PunchDict) :=
  require_database (
    punch <- execute_read (last_punch_of timecard_id) ;;
    ret (option_map convert_record_to_datetime punch)).

(** ** The command-line layer (src/interface.py)

    Besides the library's exceptions, a CLI action can end the process
    through [self.parser.exit()], which raises [SystemExit].  What the
    actions print is left out; the library calls they make, and in which
    order, are kept. *)

Inductive cli_outcome (A : Type) :=
| CliOk (a : A)
| CliRaise (e : exn)
| CliExit.
Arguments CliOk {A} a.
Arguments CliRaise {A} e.
Arguments CliExit {A}.

Definition CM (A : Type) := Conn -> cli_outcome A * Conn.

Definition cbind {A B} (m : CM A) (k : A -> CM B) : CM B :=
  fun c =>
    match m c with
    | (CliOk a, c') => k a c'
    | (CliRaise e, c') => (CliRaise e, c')
    | (CliExit, c') => (CliExit, c')
    end.

Definition cret {A} (a : A) : CM A := fun c => (CliOk a, c).

(** [self.parser.exit()] *)
Definition parser_exit {A} : CM A := fun c => (CliExit, c).

(** A call into the timecard library. *)
Definition lib {A} (m : M A) : CM A :=
  fun c =>
    match m c with
    | (Ok a, c') => (CliOk a, c')
    | (Err e, c') => (CliRaise e, c')
    end.

Notation "x <-- m ;; k" := (cbind m (fun x => k))
  (at level 61, m at next level, right associativity).
Notation "m ;;;; k" := (cbind m (fun _ => k))
  (at level 61, right associativity).

(** [interpret_conditional_boolean]: [None] stands for an option not
    given. *)
Definition interpret_conditional_boolean (value : option string) : option bool :=
  match value with
  | Some v =>
      if String.eqb v "y" || String.eqb v "yes" then Some true
      else if String.eqb v "n" || String.eqb v "no" then Some false
      else None
  | None => None
  end.

(** The records [perform_list] hands to [display_timecard_records]. *)
Definition perform_list_records (owner : option string) (active_arg : option string)
  : M (option (list Timecard)) :=
  let active := interpret_conditional_boolean active_arg in
  match owner, active with
  | Some o, None => get_all_timecards_by_owner o
  | None, Some a => get_active_timecards a
  | Some o, Some a => get_active_timecards_by_owner o a
  | None, None => get_all_timecards
  end.

(** [len(x)] of the value a listing returned: [len(None)] raises
    [TypeError]. *)
Definition py_len {A} (l : option (list A)) : CM nat :=
  fun c =>
    match l with
    | Some l => (CliOk (List.length l), c)
    | None => (CliRaise TypeError, c)
    end.

(** [get_timecard_for_current_user]: the first timecard of the system
    user with the given [active] flag; exits when there is none. *)
Definition get_timecard_for_current_user (env : Env) (active : bool) : CM Z :=
  timecard_record <-- lib (get_active_timecards_by_owner (env_user env) active) ;;
  n <-- py_len timecard_record ;;
  match n, timecard_record with
  | O, _ => parser_exit
  | _, Some (t :: _) => cret (tc_id t)
  | _, _ => parser_exit
  end.

(** [select_timecard]: an explicit [-n] wins (argparse gives a numeric
    string, which the integer column affinity of SQLite compares as the
    number), otherwise the current user's timecard. *)
Definition select_timecard (env : Env) (timecard_number : option Z) (active : bool) : CM Z :=
  match timecard_number with
  | Some tc => cret tc
  | None => get_timecard_for_current_user env active
  end.

(** [check_timecard_record]: exits unless the timecard exists and is
    active. *)
Definition check_timecard_record (timecard_id : Z) : CM unit :=
  timecard_record <-- lib (get_timecard timecard_id) ;;
  match timecard_record with
  | None => parser_exit
  | Some t => if negb (tc_active t) then parser_exit else cret tt
  end.

Inductive punch_type := PunchTypeIn | PunchTypeOut | PunchTypeDouble | PunchTypeOther.

(** [perform_punch] *)
Definition perform_punch (env : Env) (ptype : punch_type) (descr : option string)
    (unpaid : bool) (timecard_number : option Z) : CM unit :=
  let punch_paid := negb unpaid in
  timecard_id <-- select_timecard env timecard_number true ;;
  check_timecard_record timecard_id ;;;;
  match ptype with
  | PunchTypeIn => lib (punch_in env timecard_id punch_paid descr) ;;;; cret tt
  | PunchTypeOut => lib (punch_out env timecard_id) ;;;; cret tt
  | PunchTypeDouble =>
      lib (punch_out env timecard_id) ;;;;
      lib (punch_in env timecard_id punch_paid descr) ;;;; cret tt
  | PunchTypeOther => cret tt
  end.

(** The values [display_time_worked_report] renders: [None] for the
    "No Completed Time Worked" banner, otherwise the rows (the entry's
    date in the local zone of offset [local], its formatted hours) and
    the formatted total.  The total starts as [None] and
    [format_duration(None)] raises [AttributeError] on [None.days]. *)
Definition time_worked_report_values (local : Z) (work_records : option (list SummaryEntry))
  : result (option (list (datetime * string) * string)) :=
  match work_records with
  | None => Ok None
  | Some entries =>
      let total := fold_left (fun total e =>
                     match total with
                     | Some t => Some (t + se_hours e)
                     | None => Some (se_hours e)
                     end) entries None in
      let rows := map (fun e => (astimezone local (se_date e), format_duration (se_hours e)))
                    entries in
      match total with
      | None => Err AttributeError
      | Some t => Ok (Some (rows, format_duration t))
      end
  end.

(** [format_duration_short] *)
Definition format_duration_short (duration : timedelta) : string :=
  let total_seconds := td_days duration * 86400 + td_seconds duration in
  let duration_hr := Z.div total_seconds 3600 in
  let duration_min := Z.div (Z.modulo total_seconds 3600) 60 in
  str_Z duration_hr ++ "h " ++ str_Z duration_min ++ "m".

(** ** Examples on the CLI layer *)

Example perform_list_example :
  fst (perform_list_records None (Some "yes") (Some store_one_closed))
  = Ok (Some [mkTimecard 1 "alice" "Week 3" true 0 None]) /\
  fst (perform_list_records (Some "bob") None (Some store_one_closed)) = Ok (Some []).
Proof. split; reflexivity. Qed.

Example perform_punch_example :
  match perform_punch env0 PunchTypeIn None false None (Some store_one_closed) with
  | (CliOk tt, Some s') => List.length (punches s') = 2%nat
  | _ => False
  end.
Proof. vm_compute. reflexivity. Qed.

(** ** Finalizing *)

Lemma finalize_timecard_run (tc : Z) (s : Store) :
  finalize_timecard tc (Some s) =
  (Ok tt, Some (mkStore (map (finalize_if_id tc) (timecards s)) (punches s))).
Proof. reflexivity. Qed.

(** [finalize_timecard] clears [active] on the rows with the given id
    and changes nothing else: every other field and row, and all
    punches, stay as they were; finalizing again changes nothing. *)
Theorem finalize_timecard_only_clears_active (tc : Z) (s : Store) :
  exists s',
    finalize_timecard tc (Some s) = (Ok tt, Some s') /\
    punches s' = punches s /\
    Forall2 (fun u v =>
      tc_id v = tc_id u /\ tc_owner v = tc_owner u /\ tc_descr v = tc_descr u /\
      tc_created v = tc_created u /\ tc_reported v = tc_reported u /\
      tc_active v = tc_active u && negb (Z.eqb (tc_id u) tc)) (timecards s) (timecards s') /\
    finalize_timecard tc (Some s') = (Ok tt, Some s').
Proof.
  rewrite finalize_timecard_run. eexists. split; [reflexivity|]. cbn [punches timecards].
  split; [reflexivity|]. split.
  - induction (timecards s) as [|u l IH]; cbn [map]; constructor; [|exact IH].
    unfold finalize_if_id. destruct (Z.eqb (tc_id u) tc); cbn;
      rewrite ?andb_false_r, ?andb_true_r; repeat split.
  - rewrite finalize_timecard_run. cbn [timecards punches]. rewrite map_map.
    do 3 f_equal. apply map_ext. intros u. unfold finalize_if_id.
    destruct (Z.eqb (tc_id u) tc) eqn:E; cbn; rewrite ?E; reflexivity.
Qed.

Lemma finalize_if_id_id (tc : Z) (u : Timecard) : tc_id (finalize_if_id tc u) = tc_id u.
Proof. unfold finalize_if_id. destruct (Z.eqb _ _); reflexivity. Qed.

(** After [finalize_timecard] on an existing timecard,
    [mark_timecard_reported] returns [True] and records the current
    instant as [reported] on that timecard. *)
Theorem finalize_then_mark_reported (env : Env) (tc : Z) (s : Store) :
  In tc (map tc_id (timecards s)) ->
  exists s',
    snd (finalize_timecard tc (Some s)) = Some s' /\
    exists s'',
      mark_timecard_reported env tc (Some s') = (Ok true, Some s'') /\
      Exists (fun u => tc_id u = tc) (timecards s'') /\
      Forall (fun u => tc_id u = tc -> tc_reported u = Some (env_now env) /\ tc_active u = false)
        (timecards s'').
Proof.
  intros Hin. rewrite finalize_timecard_run. eexists. split; [reflexivity|].
  set (s' := mkStore (map (finalize_if_id tc) (timecards s)) (punches s)).
  assert (Hf : exists t, find_timecard tc s' = Some t /\ tc_active t = false).
  { unfold find_timecard, s'. cbn [timecards]. clear s'.
    induction (timecards s) as [|u l IH]; [destruct Hin|].
    cbn [map filter]. rewrite finalize_if_id_id.
    destruct (Z.eqb (tc_id u) tc) eqn:E.
    - eexists. split; [reflexivity|]. unfold finalize_if_id. rewrite E. reflexivity.
    - apply IH. destruct Hin as [H|H]; [|exact H]. apply Z.eqb_neq in E. contradiction. }
  destruct Hf as [t [Hf Ha]].
  rewrite mark_timecard_reported_run, Hf, Ha. eexists. split; [reflexivity|].
  unfold deactivate_timecard_stmt, s'. cbn [timecards]. rewrite map_map. split.
  - apply Exists_exists. apply in_map_iff in Hin as [u [Hu Hu']].
    exists (set_reported_if_id (env_now env) tc (finalize_if_id tc u)).
    split; [apply (in_map (fun x => set_reported_if_id (env_now env) tc (finalize_if_id tc x))), Hu'|].
    unfold set_reported_if_id, finalize_if_id. rewrite Hu, Z.eqb_refl. cbn.
    rewrite Z.eqb_refl. reflexivity.
  - apply Forall_forall. intros v Hv Hid. apply in_map_iff in Hv as [u [<- _]].
    unfold set_reported_if_id, finalize_if_id in *.
    destruct (Z.eqb (tc_id u) tc) eqn:E; cbn in *; rewrite ?E in *; cbn in *;
      [split; reflexivity|].
    apply Z.eqb_neq in E. contradiction.
Qed.

Lemma finalize_then_mark_reported_witness :
  In 1 (map tc_id (timecards store_active_card)) /\
  exists s',
    snd (finalize_timecard 1 (Some store_active_card)) = Some s' /\
    exists s'',
      mark_timecard_reported env0 1 (Some s') = (Ok true, Some s'') /\
      Exists (fun u => tc_id u = 1) (timecards s'') /\
      Forall (fun u => tc_id u = 1 -> tc_reported u = Some (env_now env0) /\ tc_active u = false)
        (timecards s'').
Proof.
  assert (H : In 1 (map tc_id (timecards store_active_card))) by (left; reflexivity).
  split; [exact H | apply (finalize_then_mark_reported env0 1 store_active_card H)].
Defined.

(** ** Listing timecards *)

(** The owner and [-a] filters of [perform_list]. *)
Definition owner_filter (owner : option string) (t : Timecard) : bool :=
  match owner with Some o => String.eqb (tc_owner t) o | None => true end.

Definition active_filter (active : option bool) (t : Timecard) : bool :=
  match active with Some a => Bool.eqb (tc_active t) a | None => true end.

Lemma select_timecards_run (pred : Timecard -> bool) (s : Store) :
  select_timecards pred (Some s) = (Ok (Some (filter pred (timecards s))), Some s).
Proof. reflexivity. Qed.

(** [perform_list] lists exactly the timecards that pass both filters,
    in table order: [-o] keeps an owner's, [-a y/yes] the active ones,
    [-a n/no] the inactive ones, and a filter not given (or any other
    [-a] text) constrains nothing.  The result is a list, empty when
    nothing matches, never [None]. *)
Theorem perform_list_filters_compose (owner active_arg : option string) (s : Store) :
  perform_list_records owner active_arg (Some s) =
  (Ok (Some (filter (fun t => owner_filter owner t
                              && active_filter (interpret_conditional_boolean active_arg) t)
                    (timecards s))), Some s).
Proof.
  unfold perform_list_records.
  destruct owner as [o|], (interpret_conditional_boolean active_arg) as [a|];
    unfold get_all_timecards_by_owner, get_active_timecards, get_active_timecards_by_owner,
      get_all_timecards; rewrite select_timecards_run; cbn [owner_filter active_filter];
    do 3 f_equal; apply filter_ext; intros t; rewrite ?andb_true_r; reflexivity.
Qed.

(** ** Punch queries *)

(** [get_punches_by_timecard] returns [None] exactly when no punch
    references the timecard, and otherwise all of its punches in table
    order. *)
Theorem get_punches_by_timecard_result (tc : Z) (s : Store) :
  get_punches_by_timecard tc (Some s) =
  (Ok (match filter (fun p => Z.eqb (p_timecard p) tc) (punches s) with
       | [] => None
       | ps => Some (map convert_record_to_datetime ps)
       end), Some s) /\
  (fst (get_punches_by_timecard tc (Some s)) = Ok None <->
   forall p, In p (punches s) -> p_timecard p <> tc).
Proof.
  assert (E : get_punches_by_timecard tc (Some s) =
    (Ok (match filter (fun p => Z.eqb (p_timecard p) tc) (punches s) with
         | [] => None
         | ps => Some (map convert_record_to_datetime ps)
         end), Some s)).
  { unfold get_punches_by_timecard, require_database, bind, execute_read, ret, rows_to_dicts.
    destruct (filter _ (punches s)); reflexivity. }
  split; [exact E|]. rewrite E. cbn [fst].
  destruct (filter _ (punches s)) as [|q qs] eqn:Ef.
  - split; [|reflexivity]. intros _ p Hp Ht.
    assert (In p (filter (fun p => Z.eqb (p_timecard p) tc) (punches s))) as Hin.
    { apply filter_In. split; [exact Hp|]. apply Z.eqb_eq, Ht. }
    rewrite Ef in Hin. destruct Hin.
  - split; [discriminate|]. intros H.
    assert (In q (filter (fun p => Z.eqb (p_timecard p) tc) (punches s))) as Hin
      by (rewrite Ef; left; reflexivity).
    apply filter_In in Hin as [Hq Ht]. apply Z.eqb_eq in Ht. exfalso. exact (H q Hq Ht).
Qed.

(** ** Selecting the timecard an action works on *)

(** Without [-n], the timecard a CLI action selects right after
    [create_timecard] for the current user (no owner given) is the one
    just created. *)
Theorem select_timecard_after_create (env : Env) (descr : option string) (s : Store) :
  exists s',
    create_timecard env None descr (Some s) = (Ok (Some (next_timecard_id s)), Some s') /\
    select_timecard env None true (Some s') = (CliOk (next_timecard_id s), Some s').
Proof.
  rewrite create_timecard_run, create_timecard_store. eexists. split; [reflexivity|].
  unfold select_timecard, get_timecard_for_current_user, cbind, lib,
    get_active_timecards_by_owner.
  rewrite select_timecards_run. cbn [timecards]. rewrite filter_app.
  rewrite filter_deactivated_nil.
  - unfold new_timecard. cbn [effective_owner filter tc_owner tc_active tc_id].
    rewrite String.eqb_refl. reflexivity.
  - intros t Ht. apply andb_prop in Ht as [Ho Ha]. apply String.eqb_eq in Ho.
    destruct (tc_active t); [|discriminate]. auto.
Qed.

(** Without [-n], an action exits when the current user has no active
    timecard, before touching the store. *)
Theorem select_timecard_no_active_exits (env : Env) (s : Store) :
  (forall t, In t (timecards s) -> tc_owner t = env_user env -> tc_active t = false) ->
  select_timecard env None true (Some s) = (CliExit, Some s).
Proof.
  intros H.
  unfold select_timecard, get_timecard_for_current_user, cbind, lib,
    get_active_timecards_by_owner.
  rewrite select_timecards_run.
  replace (filter _ (timecards s)) with (@nil Timecard); [reflexivity|].
  symmetry. induction (timecards s) as [|t l IH]; [reflexivity|]. cbn [filter].
  destruct (String.eqb (tc_owner t) (env_user env)) eqn:Eo; cbn [andb].
  - apply String.eqb_eq in Eo. rewrite (H t (or_introl eq_refl) Eo). cbn.
    apply IH. intros u Hu. apply H. right. exact Hu.
  - apply IH. intros u Hu. apply H. right. exact Hu.
Qed.

Lemma select_timecard_no_active_exits_witness :
  (forall t, In t (timecards store_one_closed) -> tc_owner t = env_user (mkEnv 0 "bob" 1) ->
             tc_active t = false) /\
  select_timecard (mkEnv 0 "bob" 1) None true (Some store_one_closed) = (CliExit, Some store_one_closed).
Proof.
  assert (H : forall t, In t (timecards store_one_closed) -> tc_owner t = env_user (mkEnv 0 "bob" 1) ->
             tc_active t = false).
  { intros t [<-|[]] Ho. discriminate. }
  split; [exact H | apply (select_timecard_no_active_exits (mkEnv 0 "bob" 1) store_one_closed H)].
Defined.

(** ** The guard in front of punching *)

(** [perform_punch] on a timecard that does not exist or is not active
    exits through [check_timecard_record] before any punch call: the
    store is left unchanged, whatever the punch type. *)
Theorem perform_punch_rejects_unusable (env : Env) (ptype : punch_type)
    (descr : option string) (unpaid : bool) (tc : Z) (s : Store) :
  (find_timecard tc s = None \/ exists t, find_timecard tc s = Some t /\ tc_active t = false) ->
  perform_punch env ptype descr unpaid (Some tc) (Some s) = (CliExit, Some s).
Proof.
  intros H. unfold perform_punch, select_timecard, check_timecard_record, cbind, cret, lib.
  change (get_timecard tc (Some s)) with (Ok (find_timecard tc s), Some s).
  destruct H as [H|[t [H Ha]]]; rewrite H; [reflexivity|]. rewrite Ha. reflexivity.
Qed.

Lemma perform_punch_rejects_unusable_witness :
  (find_timecard 5 store_one_closed = None \/
   exists t, find_timecard 5 store_one_closed = Some t /\ tc_active t = false) /\
  perform_punch env0 PunchTypeIn None false (Some 5) (Some store_one_closed)
  = (CliExit, Some store_one_closed).
Proof.
  assert (H : find_timecard 5 store_one_closed = None \/
              exists t, find_timecard 5 store_one_closed = Some t /\ tc_active t = false)
    by (left; reflexivity).
  split; [exact H | apply (perform_punch_rejects_unusable env0 PunchTypeIn None false 5 _ H)].
Defined.

(** ** Punching in, then out *)

Lemma next_rowid_pos (ids : list Z) : Forall (fun i => 0 <= i) ids -> 1 <= next_rowid ids.
Proof.
  destruct ids as [|i rest]; cbn [next_rowid]; [lia|]. intros H.
  pose proof (fold_max_ge i rest i (or_introl eq_refl)). inversion H; lia.
Qed.

Lemma close_if_id_fresh (now i : Z) (l : list Punch) :
  ~ In i (map p_id l) -> map (close_if_id now (Some i)) l = l.
Proof.
  induction l as [|q l IH]; intros Hn; [reflexivity|]. cbn [map].
  unfold close_if_id at 1. cbn [sql_eq_param]. destruct (Z.eqb i (p_id q)) eqn:E.
  - apply Z.eqb_eq in E. exfalso. apply Hn. left. symmetry. exact E.
  - f_equal. apply IH. intros Hi. apply Hn. right. exact Hi.
Qed.

Lemma map_p_id_deactivate (tc : Z) (l : list Punch) :
  map p_id (map (deactivate_if_timecard tc) l) = map p_id l.
Proof.
  rewrite map_map. apply map_ext. intros q. unfold deactivate_if_timecard.
  destruct (Z.eqb _ _); reflexivity.
Qed.

(** The run of [punch_in] then [punch_out] on one timecard. *)
Lemma punch_in_then_out_run (env1 env2 : Env) (tc : Z) (paid : bool) (descr : option string)
    (s : Store) :
  Forall (fun p => 0 <= p_id p) (punches s) ->
  exists i s1 s2,
    ~ In i (map p_id (punches s)) /\
    punch_in env1 tc paid descr (Some s) =
      (Ok (Some (convert_record_to_datetime
                   (mkPunch i tc (punch_descr descr) paid true (env_now env1) None))), Some s1) /\
    punch_out env2 tc (Some s1) =
      (Ok (Some (convert_record_to_datetime
                   (mkPunch i tc (punch_descr descr) paid false (env_now env1)
                      (Some (env_now env2))))), Some s2) /\
    timecards s2 = timecards s /\
    punches s2 = (map (deactivate_if_timecard tc) (punches s) ++
                  [mkPunch i tc (punch_descr descr) paid false (env_now env1) (Some (env_now env2))])%list /\
    active_punches_of tc s2 = [].
Proof.
  intros Hpos.
  set (s1 := deactivate_old_punches tc s).
  set (i := next_punch_id s1).
  assert (Hfresh : ~ In i (map p_id (punches s1))) by apply next_rowid_fresh.
  assert (Hfresh0 : ~ In i (map p_id (punches s))).
  { unfold s1, deactivate_old_punches in Hfresh. cbn [punches] in Hfresh.
    rewrite map_p_id_deactivate in Hfresh. exact Hfresh. }
  assert (Hi : 1 <= i).
  { unfold i, next_punch_id, s1, deactivate_old_punches. cbn [punches].
    rewrite map_p_id_deactivate. apply next_rowid_pos. apply Forall_map. exact Hpos. }
  set (s1' := punch_timecard (env_now env1) tc paid (punch_descr descr) s1).
  exists i, s1', (punch_timecard_out (env_now env2) (Some i) s1').
  split; [exact Hfresh0|]. split; [rewrite punch_in_run; reflexivity|].
  rewrite punch_out_run. cbv zeta.
  assert (Hpid : active_punch_id tc s1' = Some i).
  { unfold active_punch_id, s1', s1. rewrite punch_in_active. reflexivity. }
  rewrite Hpid. cbn [py_int_truthy].
  replace (negb (Z.eqb i 0)) with true by (symmetry; apply negb_true_iff, Z.eqb_neq; lia).
  assert (Hps : punches (punch_timecard_out (env_now env2) (Some i) s1') =
                (punches s1 ++
                 [mkPunch i tc (punch_descr descr) paid false (env_now env1) (Some (env_now env2))])%list).
  { unfold punch_timecard_out, s1', punch_timecard. cbn [punches]. rewrite map_app.
    rewrite close_if_id_fresh by exact Hfresh. cbn. unfold close_if_id. cbn.
    rewrite Z.eqb_refl. reflexivity. }
  split; [|split; [reflexivity|split]].
  - rewrite Hps, filter_app, filter_fresh_id by exact Hfresh. cbn. rewrite Z.eqb_refl. reflexivity.
  - exact Hps.
  - unfold active_punches_of. rewrite Hps, filter_app. unfold s1, deactivate_old_punches.
    cbn [punches]. rewrite deactivated_no_active. cbn. rewrite Z.eqb_refl. reflexivity.
Qed.

(** A [punch_in] followed by a [punch_out] on the same timecard closes
    exactly the punch [punch_in] opened: [punch_out] returns it with its
    time in kept, the second call's time as time out, and inactive.  The
    other punches keep what [punch_in] left them, so the timecard has no
    active punch afterwards.  Rowids are never negative in SQLite's
    automatic numbering; with a negative largest id, the new punch would
    get id 0, which [if punch_id:] treats as no punch. *)
Theorem punch_in_then_out (env1 env2 : Env) (tc : Z) (paid : bool) (descr : option string)
    (s : Store) :
  Forall (fun p => 0 <= p_id p) (punches s) ->
  exists i s1 s2,
    ~ In i (map p_id (punches s)) /\
    punch_in env1 tc paid descr (Some s) =
      (Ok (Some (convert_record_to_datetime
                   (mkPunch i tc (punch_descr descr) paid true (env_now env1) None))), Some s1) /\
    punch_out env2 tc (Some s1) =
      (Ok (Some (convert_record_to_datetime
                   (mkPunch i tc (punch_descr descr) paid false (env_now env1)
                      (Some (env_now env2))))), Some s2) /\
    timecards s2 = timecards s /\
    punches s2 = (map (deactivate_if_timecard tc) (punches s) ++
                  [mkPunch i tc (punch_descr descr) paid false (env_now env1) (Some (env_now env2))])%list /\
    active_punches_of tc s2 = [].
Proof. exact (punch_in_then_out_run env1 env2 tc paid descr s). Qed.

Lemma punch_in_then_out_witness :
  Forall (fun p => 0 <= p_id p) (punches store_one_closed) /\
  exists i s1 s2,
    ~ In i (map p_id (punches store_one_closed)) /\
    punch_in env0 1 true None (Some store_one_closed) =
      (Ok (Some (convert_record_to_datetime
                   (mkPunch i 1 (punch_descr None) true true (env_now env0) None))), Some s1) /\
    punch_out (mkEnv 2000 "alice" 3) 1 (Some s1) =
      (Ok (Some (convert_record_to_datetime
                   (mkPunch i 1 (punch_descr None) true false (env_now env0)
                      (Some (env_now (mkEnv 2000 "alice" 3)))))), Some s2) /\
    timecards s2 = timecards store_one_closed /\
    punches s2 = (map (deactivate_if_timecard 1) (punches store_one_closed) ++
                  [mkPunch i 1 (punch_descr None) true false (env_now env0)
                     (Some (env_now (mkEnv 2000 "alice" 3)))])%list /\
    active_punches_of 1 s2 = [].
Proof.
  assert (H : Forall (fun p => 0 <= p_id p) (punches store_one_closed)).
  { repeat constructor; cbn; lia. }
  split; [exact H | apply (punch_in_then_out env0 (mkEnv 2000 "alice" 3) 1 true None _ H)].
Defined.

(** ** The latest punch of a timecard *)

Lemma order_by_desc_snoc {A} (key : A -> Z) (l : list A) (x : A) :
  order_by_desc key (l ++ [x]) = insert_desc key x (order_by_desc key l).
Proof. unfold order_by_desc. rewrite fold_left_app. reflexivity. Qed.

Lemma in_insert_desc {A} (key : A -> Z) (x y : A) (l : list A) :
  In y (insert_desc key x l) -> y = x \/ In y l.
Proof.
  induction l as [|z l IH]; cbn [insert_desc].
  - intros [E|[]]. left. symmetry. exact E.
  - destruct (key z <? key x).
    + intros [E|H]; [left; symmetry; exact E | right; exact H].
    + intros [E|H]; [right; left; exact E|]. destruct (IH H) as [E|H']; [left; exact E|].
      right. right. exact H'.
Qed.

Lemma in_order_by_desc {A} (key : A -> Z) (l : list A) (y : A) :
  In y (order_by_desc key l) -> In y l.
Proof.
  unfold order_by_desc. cut (forall acc, In y (fold_left (fun acc x => insert_desc key x acc) l acc) ->
                                       In y acc \/ In y l).
  { intros H Hy. destruct (H [] Hy) as [[]|H']. exact H'. }
  induction l as [|x l IH]; intros acc Hy; cbn [fold_left] in Hy; [left; exact Hy|].
  destruct (IH _ Hy) as [H|H]; [|right; right; exact H].
  destruct (in_insert_desc key x y acc H) as [E|H']; [right; left; symmetry; exact E|].
  left. exact H'.
Qed.

Lemma insert_desc_top {A} (key : A -> Z) (x : A) (l : list A) :
  (forall y, In y l -> key y < key x) -> insert_desc key x l = x :: l.
Proof.
  destruct l as [|y l]; intros H; [reflexivity|]. cbn [insert_desc].
  replace (key y <? key x) with true; [reflexivity|].
  symmetry. apply Z.ltb_lt. apply H. left. reflexivity.
Qed.

(** Right after [punch_in], [get_last_punch_by_timecard] returns the
    punch [punch_in] returned, provided the timecard's earlier punches
    all have an earlier time in ([order by time_in desc] breaks ties by
    table order, which puts the new row last). *)
Theorem last_punch_after_punch_in (env : Env) (tc : Z) (paid : bool) (descr : option string)
    (s : Store) :
  (forall p, In p (punches s) -> p_timecard p = tc -> p_time_in p < env_now env) ->
  exists pd s',
    punch_in env tc paid descr (Some s) = (Ok (Some pd), Some s') /\
    get_last_punch_by_timecard tc (Some s') = (Ok (Some pd), Some s').
Proof.
  intros Hlt. rewrite punch_in_run. do 2 eexists. split; [reflexivity|].
  unfold get_last_punch_by_timecard, require_database, bind, execute_read, ret, last_punch_of.
  unfold punch_timecard at 1. cbn [punches]. rewrite filter_app. cbn [filter new_punch p_timecard].
  rewrite Z.eqb_refl, order_by_desc_snoc, insert_desc_top; [reflexivity|].
  intros y Hy. apply in_order_by_desc in Hy. apply filter_In in Hy as [Hy Ht].
  apply Z.eqb_eq in Ht. unfold deactivate_old_punches in Hy. cbn [punches] in Hy.
  apply in_map_iff in Hy as [p [<- Hp]].
  destruct (deactivate_if_timecard_props tc p) as [Htc _].
  replace (p_time_in (deactivate_if_timecard tc p)) with (p_time_in p)
    by (unfold deactivate_if_timecard; destruct (Z.eqb _ _); reflexivity).
  cbn [p_time_in new_punch]. apply Hlt; [exact Hp|]. rewrite <- Htc. exact Ht.
Qed.

Lemma last_punch_after_punch_in_witness :
  (forall p, In p (punches store_one_closed) -> p_timecard p = 1 -> p_time_in p < env_now env0) /\
  exists pd s',
    punch_in env0 1 true None (Some store_one_closed) = (Ok (Some pd), Some s') /\
    get_last_punch_by_timecard 1 (Some s') = (Ok (Some pd), Some s').
Proof.
  assert (H : forall p, In p (punches store_one_closed) -> p_timecard p = 1 ->
                        p_time_in p < env_now env0).
  { intros p Hp _. cbn in Hp. destruct Hp as [<-|[]]. cbn. lia. }
  split; [exact H | apply (last_punch_after_punch_in env0 1 true None _ H)].
Defined.

(** ** The shape of the paid-time summary *)

Lemma report_add_keys (key : Z) (h : timedelta) (first : datetime) (r : Report) (k : Z) :
  In k (map fst (report_add key h first r)) <-> k = key \/ In k (map fst r).
Proof.
  induction r as [|[k0 e] rest IH]; cbn [report_add map fst].
  - cbn. split; [intros [E|[]]; left; symmetry; exact E | intros [E|[]]; left; symmetry; exact E].
  - destruct (Z.eqb k0 key) eqn:E; cbn [map fst In].
    + apply Z.eqb_eq in E. subst k0. split.
      * intros [H|H]; [left; symmetry; exact H|right; right; exact H].
      * intros [H|[H|H]]; [left; symmetry; exact H|left; exact H|right; exact H].
    + rewrite IH. tauto.
Qed.

Lemma report_add_nodup (key : Z) (h : timedelta) (first : datetime) (r : Report) :
  NoDup (map fst r) -> NoDup (map fst (report_add key h first r)).
Proof.
  induction r as [|[k0 e] rest IH]; intros Hnd; cbn [report_add map fst].
  - constructor; [intros []|constructor].
  - inversion Hnd as [|? ? Hn Hnd']; subst.
    destruct (Z.eqb k0 key) eqn:E; cbn [map fst].
    + constructor; assumption.
    + constructor; [|apply IH; exact Hnd'].
      rewrite report_add_keys. apply Z.eqb_neq in E. tauto.
Qed.

(** Every key of the report is the day of the entry it holds. *)
Definition report_keyed (r : Report) : Prop :=
  Forall (fun ke => fst ke = dt_date (se_date (snd ke))) r.

Lemma report_add_keyed (h : timedelta) (first : datetime) (r : Report) :
  report_keyed r -> report_keyed (report_add (dt_date first) h first r).
Proof.
  unfold report_keyed. induction r as [|[k0 e] rest IH]; intros Hk; cbn [report_add].
  - repeat constructor.
  - inversion Hk as [|? ? Hx Hk']; subst.
    destruct (Z.eqb k0 (dt_date first)); constructor; cbn in *; auto.
Qed.

Lemma fold_summary_shape (l : list PunchDict) :
  forall r, report_keyed r -> NoDup (map fst r) ->
  report_keyed (fold_left summary_step l r) /\ NoDup (map fst (fold_left summary_step l r)) /\
  (forall k, In k (map fst (fold_left summary_step l r)) <->
             In k (map fst r) \/
             exists pd, In pd l /\ pd_paid pd = true /\ dt_date (pd_time_in pd) = k).
Proof.
  induction l as [|pd l IH]; intros r Hk Hnd; cbn [fold_left].
  - split; [exact Hk|split; [exact Hnd|]]. intros k. split; [tauto|].
    intros [H|[pd [[] _]]]. exact H.
  - assert (Hs : report_keyed (summary_step r pd) /\ NoDup (map fst (summary_step r pd)) /\
                 forall k, In k (map fst (summary_step r pd)) <->
                           In k (map fst r) \/ (pd_paid pd = true /\ dt_date (pd_time_in pd) = k)).
    { unfold summary_step. destruct (pd_paid pd); cbn [negb].
      - split; [apply report_add_keyed; exact Hk|split; [apply report_add_nodup; exact Hnd|]].
        intros k. rewrite report_add_keys. intuition.
      - split; [exact Hk|split; [exact Hnd|]]. intros k. intuition discriminate. }
    destruct Hs as [Hk1 [Hnd1 Hin1]].
    destruct (IH _ Hk1 Hnd1) as [Hk2 [Hnd2 Hin2]].
    split; [exact Hk2|split; [exact Hnd2|]].
    intros k. rewrite Hin2, Hin1. split.
    + intros [[H|[Hp Hd]]|[pd' [Hi Hp]]]; [left; exact H| |].
      * right. exists pd. split; [left; reflexivity|auto].
      * right. exists pd'. split; [right; exact Hi|exact Hp].
    + intros [H|[pd' [[E|Hi] Hp]]]; [left; left; exact H| |].
      * subst pd'. left. right. exact Hp.
      * right. exists pd'. split; [exact Hi|exact Hp].
Qed.

Lemma paid_summary_entries (tc : Z) (s : Store) :
  exists res,
    get_paid_time_summary tc (Some s) = (Ok res, Some s) /\
    summary_entries res =
      map snd (fold_left summary_step
                 (map convert_record_to_datetime (filter (completed_row tc) (punches s))) []).
Proof.
  unfold get_paid_time_summary, get_completed_punches_by_timecard,
    require_database, bind, execute_read, ret.
  destruct (filter (completed_row tc) (punches s)) as [|q qs];
    cbv beta iota delta [rows_to_dicts]; eexists; (split; [reflexivity|]); reflexivity.
Qed.

(** [get_paid_time_summary] returns one entry per UTC day: the days of
    its entries (the day of each entry's [date]) are pairwise distinct,
    and they are exactly the UTC days of the time in of the timecard's
    paid, completed punches. *)
Theorem paid_summary_one_entry_per_day (tc : Z) (s : Store) :
  exists res,
    get_paid_time_summary tc (Some s) = (Ok res, Some s) /\
    NoDup (map (fun e => dt_date (se_date e)) (summary_entries res)) /\
    forall d, In d (map (fun e => dt_date (se_date e)) (summary_entries res)) <->
              exists p, In p (punches s) /\ paid_completed tc p = true /\
                        Z.div (p_time_in p) 86400 = d.
Proof.
  destruct (paid_summary_entries tc s) as [res [Hrun Hent]].
  exists res. split; [exact Hrun|]. rewrite Hent.
  destruct (fold_summary_shape
              (map convert_record_to_datetime (filter (completed_row tc) (punches s))) []
              (Forall_nil _) (NoDup_nil _)) as [Hk [Hnd Hin]].
  set (r := fold_left summary_step _ []) in *.
  assert (Hdays : map (fun e => dt_date (se_date e)) (map snd r) = map fst r).
  { rewrite map_map. symmetry. apply map_ext_in. intros ke Hke.
    unfold report_keyed in Hk. rewrite Forall_forall in Hk. exact (Hk ke Hke). }
  rewrite Hdays. split; [exact Hnd|].
  intros d. rewrite Hin. split.
  - intros [[]|[pd [Hpd [Hp Hd]]]].
    apply in_map_iff in Hpd as [p [<- Hpf]]. apply filter_In in Hpf as [Hps Hc].
    exists p. split; [exact Hps|]. split.
    + unfold paid_completed. rewrite Hc. exact Hp.
    + exact Hd.
  - intros [p [Hps [Hpc Hd]]]. right.
    unfold paid_completed in Hpc. apply andb_prop in Hpc as [Hc Hp].
    exists (convert_record_to_datetime p). split.
    + apply in_map. apply filter_In. split; assumption.
    + split; [exact Hp | exact Hd].
Qed.

(** ** What the time-worked report shows *)

Lemma paid_summary_empty (tc : Z) (s : Store) :
  filter (completed_row tc) (punches s) = [] ->
  get_paid_time_summary tc (Some s) = (Ok None, Some s).
Proof.
  intros E. unfold get_paid_time_summary, get_completed_punches_by_timecard,
    require_database, bind, execute_read, ret. rewrite E. reflexivity.
Qed.

Lemma paid_summary_nonempty (tc : Z) (s : Store) (q : Punch) (qs : list Punch) :
  filter (completed_row tc) (punches s) = q :: qs ->
  get_paid_time_summary tc (Some s) =
  (Ok (Some (map snd (fold_left summary_step
                        (map convert_record_to_datetime (filter (completed_row tc) (punches s)))
                        []))), Some s).
Proof.
  intros E. rewrite E. unfold get_paid_time_summary, get_completed_punches_by_timecard,
    require_database, bind, execute_read, ret. rewrite E. reflexivity.
Qed.

Lemma fold_total_some (es : list SummaryEntry) :
  forall t, fold_left (fun total e =>
                         match total with
                         | Some t => Some (t + se_hours e)
                         | None => Some (se_hours e)
                         end) es (Some t) = Some (t + sum_hours es).
Proof.
  unfold sum_hours. induction es as [|e es IH]; intros t; cbn [fold_left map fold_right].
  - f_equal. lia.
  - rewrite IH. f_equal. lia.
Qed.

Lemma time_worked_values_nonempty (local : Z) (es : list SummaryEntry) :
  es <> [] ->
  time_worked_report_values local (Some es) =
  Ok (Some (map (fun e => (astimezone local (se_date e), format_duration (se_hours e))) es,
            format_duration (sum_hours es))).
Proof.
  destruct es as [|e es]; intros H; [contradiction H; reflexivity|].
  unfold time_worked_report_values. cbn [fold_left]. rewrite fold_total_some.
  unfold sum_hours. cbn [map fold_right]. reflexivity.
Qed.

(** What [display_time_worked_report(get_paid_time_summary(id))], as
    [perform_report] calls it, does in each case.  With no completed
    punch it prints the "No Completed Time Worked" banner.  With
    completed punches that are all unpaid, [if not completed_punches]
    lets an empty report through; the loop never sets [total], and
    [format_duration(None)] raises [AttributeError].  With a paid,
    completed punch, the total row shows the formatted sum of the paid,
    completed punches' durations. *)
Theorem time_worked_report_cases (local tc : Z) (s : Store) :
  exists res,
    get_paid_time_summary tc (Some s) = (Ok res, Some s) /\
    (filter (completed_row tc) (punches s) = [] ->
     time_worked_report_values local res = Ok None) /\
    (filter (completed_row tc) (punches s) <> [] -> filter (paid_completed tc) (punches s) = [] ->
     time_worked_report_values local res = Err AttributeError) /\
    (filter (paid_completed tc) (punches s) <> [] ->
     exists rows, time_worked_report_values local res =
                  Ok (Some (rows, format_duration (paid_completed_total tc s)))).
Proof.
  destruct (filter (completed_row tc) (punches s)) as [|q qs] eqn:Ec.
  - exists None. split; [apply paid_summary_empty; exact Ec|].
    split; [reflexivity|]. split; [intros H; contradiction H; reflexivity|].
    intros H. contradiction H. apply paid_completed_sub. exact Ec.
  - set (L := map convert_record_to_datetime (filter (completed_row tc) (punches s))).
    assert (HL : fold_left summary_step L [] =
                 fold_left summary_step
                   (map convert_record_to_datetime (filter (paid_completed tc) (punches s))) []).
    { unfold L. rewrite fold_summary_paid, filter_paid_convert, filter_paid_completed. reflexivity. }
    exists (Some (map snd (fold_left summary_step L []))).
    split; [apply (paid_summary_nonempty tc s q qs Ec)|].
    split; [discriminate|]. split.
    + intros _ Hp. rewrite HL, Hp. reflexivity.
    + intros Hp. destruct (filter (paid_completed tc) (punches s)) as [|p ps] eqn:Ep;
        [contradiction Hp; reflexivity|].
      assert (Hne : map snd (fold_left summary_step L []) <> []).
      { destruct (fold_summary_shape L [] (Forall_nil _) (NoDup_nil _)) as [_ [_ Hin]].
        assert (Hk : In (dt_date (pd_time_in (convert_record_to_datetime p)))
                        (map fst (fold_left summary_step L []))).
        { apply Hin. right. exists (convert_record_to_datetime p).
          assert (Hpin : In p (filter (paid_completed tc) (punches s))) by (rewrite Ep; left; reflexivity).
          apply filter_In in Hpin as [Hps Hpc]. unfold paid_completed in Hpc.
          apply andb_prop in Hpc as [Hc Hpp].
          split; [|split; [exact Hpp|reflexivity]].
          unfold L. apply in_map. apply filter_In. split; assumption. }
        intros E. destruct (fold_left summary_step L []); [exact Hk|discriminate]. }
      eexists. rewrite (time_worked_values_nonempty local _ Hne). do 3 f_equal.
      rewrite HL, sum_fold_summary, <- Ep, step_hours_paid_completed.
      unfold paid_completed_total. unfold sum_hours at 1. cbn [map fold_right].
      rewrite Z.add_0_l. reflexivity.
Qed.

(** ** A timecard's first day, end to end *)

Lemma completed_row_deactivated_other (tc : Z) (l : list Punch) :
  (forall p, In p l -> p_timecard p <> tc) ->
  filter (completed_row tc) (map (deactivate_if_timecard tc) l) = [].
Proof.
  induction l as [|p l IH]; intros H; [reflexivity|]. cbn [map filter].
  destruct (deactivate_if_timecard_props tc p) as [Ht _].
  unfold completed_row at 1. rewrite Ht.
  replace (Z.eqb (p_timecard p) tc) with false
    by (symmetry; apply Z.eqb_neq; apply H; left; reflexivity).
  rewrite andb_false_r. apply IH. intros q Hq. apply H. right. exact Hq.
Qed.

(** Creating a timecard for the current user, punching in (paid, no
    description) at one time and out at a later call gives a summary
    of one entry: the day of the punch in, with the time between the
    two calls.  A punch already recorded under the new timecard's id
    ([punch_in] checks no timecard, so one can exist) would be counted
    too, hence the second hypothesis. *)
Theorem new_timecard_one_punch_summary (env1 env2 env3 : Env) (descr : option string)
    (s : Store) :
  Forall (fun p => 0 <= p_id p) (punches s) ->
  (forall p, In p (punches s) -> p_timecard p <> next_timecard_id s) ->
  exists s1 s2 s3 pd1 pd2,
    create_timecard env1 None descr (Some s) = (Ok (Some (next_timecard_id s)), Some s1) /\
    punch_in env2 (next_timecard_id s) true None (Some s1) = (Ok (Some pd1), Some s2) /\
    punch_out env3 (next_timecard_id s) (Some s2) = (Ok (Some pd2), Some s3) /\
    get_paid_time_summary (next_timecard_id s) (Some s3) =
      (Ok (Some [mkSummaryEntry (sqlite_ts_to_datetime (env_now env2) 0 0)
                                ((env_now env3 - env_now env2) * 1000000)]), Some s3).
Proof.
  intros Hpos Hnot.
  set (i := next_timecard_id s).
  set (s1 := mkStore (map (deactivate_if_owner (effective_owner env1 None)) (timecards s)
                      ++ [new_timecard env1 None descr s]) (punches s)).
  destruct (punch_in_then_out_run env2 env3 i true None s1 Hpos)
    as [j [s2 [s3 [_ [Hin [Hout [_ [Hps _]]]]]]]].
  exists s1, s2, s3. do 2 eexists.
  split; [rewrite create_timecard_run, create_timecard_store; reflexivity|].
  split; [exact Hin|]. split; [exact Hout|].
  assert (Hc : filter (completed_row i) (punches s3) =
               [mkPunch j i (punch_descr None) true false (env_now env2) (Some (env_now env3))]).
  { rewrite Hps, filter_app. cbn [punches s1].
    rewrite completed_row_deactivated_other by exact Hnot.
    cbn. rewrite Z.eqb_refl. reflexivity. }
  rewrite (paid_summary_nonempty i s3 _ _ Hc), Hc. cbn. unfold dt_sub. cbn. repeat f_equal; lia.
Qed.

Lemma new_timecard_one_punch_summary_witness :
  Forall (fun p => 0 <= p_id p) (punches store_one_closed) /\
  (forall p, In p (punches store_one_closed) -> p_timecard p <> next_timecard_id store_one_closed) /\
  exists s1 s2 s3 pd1 pd2,
    create_timecard env0 None None (Some store_one_closed) =
      (Ok (Some (next_timecard_id store_one_closed)), Some s1) /\
    punch_in (mkEnv 2000 "alice" 3) (next_timecard_id store_one_closed) true None (Some s1) =
      (Ok (Some pd1), Some s2) /\
    punch_out (mkEnv 5600 "alice" 3) (next_timecard_id store_one_closed) (Some s2) =
      (Ok (Some pd2), Some s3) /\
    get_paid_time_summary (next_timecard_id store_one_closed) (Some s3) =
      (Ok (Some [mkSummaryEntry (sqlite_ts_to_datetime (env_now (mkEnv 2000 "alice" 3)) 0 0)
                                ((env_now (mkEnv 5600 "alice" 3) - env_now (mkEnv 2000 "alice" 3))
                                 * 1000000)]), Some s3).
Proof.
  assert (H1 : Forall (fun p => 0 <= p_id p) (punches store_one_closed))
    by (repeat constructor; cbn; lia).
  assert (H2 : forall p, In p (punches store_one_closed) ->
                         p_timecard p <> next_timecard_id store_one_closed).
  { intros p Hp. cbn in Hp. destruct Hp as [<-|[]]. vm_compute. discriminate. }
  split; [exact H1|]. split; [exact H2|].
  apply (new_timecard_one_punch_summary env0 (mkEnv 2000 "alice" 3) (mkEnv 5600 "alice" 3)
           None store_one_closed H1 H2).
Defined.

(** ** Paid and unpaid punches *)

(** [get_paid_punches_by_timecard]: [select * from punches where
    timecard = ? and paid = ?] *)
Definition get_paid_punches_by_timecard (timecard_id : Z) (paid : bool)
  : M (option (list PunchDict)) :=
  require_database (
    punches <- execute_read (fun s => filter (fun p => Z.eqb (p_timecard p) timecard_id
                                                     && Bool.eqb (p_paid p) paid)
                                              (punches s)) ;;
    ret (rows_to_dicts punches)).

(** The rows a fetch returned, [None] read as no rows. *)
Definition fetched_rows {A} (rows : option (list A)) : list A :=
  match rows with
  | None => []
  | Some l => l
  end.

Lemma filter_split_paid (tc : Z) (l : list Punch) :
  Permutation (filter (fun p => Z.eqb (p_timecard p) tc) l)
    (filter (fun p => Z.eqb (p_timecard p) tc && Bool.eqb (p_paid p) true) l ++
     filter (fun p => Z.eqb (p_timecard p) tc && Bool.eqb (p_paid p) false) l).
Proof.
  induction l as [|p l IH]; [constructor|]. cbn [filter].
  destruct (Z.eqb (p_timecard p) tc); cbn [andb]; [|exact IH].
  destruct (p_paid p); cbn [Bool.eqb].
  - cbn [app]. constructor. exact IH.
  - apply Permutation_cons_app. exact IH.
Qed.

Lemma fetched_rows_to_dicts (l : list Punch) :
  fetched_rows (rows_to_dicts l) = map convert_record_to_datetime l.
Proof. destruct l; reflexivity. Qed.

(** The paid punches of a timecard and its unpaid ones, as the two
    calls of [get_paid_punches_by_timecard] return them, are together
    the punches [get_punches_by_timecard] returns, each exactly once;
    every punch of the first call is paid, none of the second is. *)
Theorem paid_unpaid_punches_partition (tc : Z) (s : Store) :
  exists all paid unpaid,
    get_punches_by_timecard tc (Some s) = (Ok all, Some s) /\
    get_paid_punches_by_timecard tc true (Some s) = (Ok paid, Some s) /\
    get_paid_punches_by_timecard tc false (Some s) = (Ok unpaid, Some s) /\
    Permutation (fetched_rows all) (fetched_rows paid ++ fetched_rows unpaid) /\
    Forall (fun pd => pd_paid pd = true /\ pd_timecard pd = tc) (fetched_rows paid) /\
    Forall (fun pd => pd_paid pd = false /\ pd_timecard pd = tc) (fetched_rows unpaid).
Proof.
  do 3 eexists. split; [reflexivity|]. split; [reflexivity|]. split; [reflexivity|].
  rewrite !fetched_rows_to_dicts, <- map_app. split.
  - apply Permutation_map. apply filter_split_paid.
  - split; apply Forall_map, Forall_forall; intros p Hp; apply filter_In in Hp as [_ Hp];
      apply andb_prop in Hp as [Ht Hb]; apply Z.eqb_eq in Ht; cbn;
      destruct (p_paid p); try discriminate; split; auto.
Qed.

(** ** The two duration formatters *)

(** [format_duration] and [format_duration_short] show the same hours
    and minutes: the duration's whole seconds (floored) truncated down
    to the minute, with the minutes between 0 and 59; the long form
    only adds the English units. *)
Theorem format_durations_agree (d : timedelta) :
  exists h m,
    format_duration_short d = str_Z h ++ "h " ++ str_Z m ++ "m" /\
    format_duration d = (str_Z h ++ (if Z.eqb h 1 then " hr, " else " hrs, ")) ++
                        str_Z m ++ (if Z.eqb m 1 then " min" else " mins") /\
    0 <= m < 60 /\
    h * 3600 + m * 60 <= Z.div d 1000000 < h * 3600 + m * 60 + 60.
Proof.
  set (t := Z.div d 1000000).
  exists (Z.div t 3600), (Z.div (Z.modulo t 3600) 60).
  unfold format_duration_short, format_duration. rewrite total_seconds_floor. fold t.
  split; [reflexivity|]. split.
  - destruct (Z.eqb (t / 3600) 1), (Z.eqb (t mod 3600 / 60) 1); reflexivity.
  - pose proof (Z.mod_pos_bound t 3600 ltac:(lia)).
    pose proof (Z.div_mod t 3600 ltac:(lia)).
    pose proof (Z.mod_pos_bound (t mod 3600) 60 ltac:(lia)).
    pose proof (Z.div_mod (t mod 3600) 60 ltac:(lia)).
    split; [split|split]; try (apply Z.div_pos; lia).
    + apply Z.div_lt_upper_bound; lia.
    + lia.
    + lia.
Qed.

(** ** The double punch *)

Lemma map_p_id_close (now : Z) (pid : option Z) (l : list Punch) :
  map p_id (map (close_if_id now pid) l) = map p_id l.
Proof.
  rewrite map_map. apply map_ext. intros q. unfold close_if_id.
  destruct (sql_eq_param _ _); reflexivity.
Qed.

Lemma perform_punch_checked (env : Env) (ptype : punch_type) (descr : option string)
    (unpaid : bool) (tc : Z) (s : Store) (t : Timecard) :
  find_timecard tc s = Some t -> tc_active t = true ->
  perform_punch env ptype descr unpaid (Some tc) (Some s) =
  match ptype with
  | PunchTypeIn => (lib (punch_in env tc (negb unpaid) descr) ;;;; cret tt) (Some s)
  | PunchTypeOut => (lib (punch_out env tc) ;;;; cret tt) (Some s)
  | PunchTypeDouble =>
      (lib (punch_out env tc) ;;;; lib (punch_in env tc (negb unpaid) descr) ;;;; cret tt) (Some s)
  | PunchTypeOther => (CliOk tt, Some s)
  end.
Proof.
  intros Hf Ha. unfold perform_punch, select_timecard, check_timecard_record.
  unfold cbind at 1. cbn [cret]. unfold cbind at 1. unfold cbind at 1.
  change (lib (get_timecard tc) (Some s)) with (CliOk (find_timecard tc s), Some s).
  rewrite Hf, Ha. cbn [negb]. destruct ptype; reflexivity.
Qed.

(** A double punch on an existing, active timecard is a punch out
    followed by a punch in: the punch [get_active_punch_id] picks (if
    its id is not 0) gets the current time as time out, every punch of
    the timecard is then deactivated, and a new punch, opened now, is
    the timecard's only active one. *)
Theorem perform_double_punch (env : Env) (descr : option string) (unpaid : bool) (tc : Z)
    (s : Store) (t : Timecard) :
  find_timecard tc s = Some t -> tc_active t = true ->
  let pid := active_punch_id tc s in
  let np := mkPunch (next_punch_id s) tc (punch_descr descr) (negb unpaid) true (env_now env) None in
  exists s',
    perform_punch env PunchTypeDouble descr unpaid (Some tc) (Some s) = (CliOk tt, Some s') /\
    timecards s' = timecards s /\
    punches s' = (map (fun p => deactivate_if_timecard tc
                                  (close_if_id (env_now env)
                                     (if py_int_truthy pid then pid else None) p))
                      (punches s) ++ [np])%list /\
    active_punches_of tc s' = [np].
Proof.
  intros Hf Ha pid np.
  rewrite (perform_punch_checked env PunchTypeDouble descr unpaid tc s t Hf Ha).
  set (so := if py_int_truthy pid then punch_timecard_out (env_now env) pid s else s).
  assert (Hso : punches so = map (close_if_id (env_now env) (if py_int_truthy pid then pid else None))
                               (punches s) /\ timecards so = timecards s).
  { unfold so. destruct (py_int_truthy pid); [split; reflexivity|].
    split; [|reflexivity]. symmetry. rewrite <- map_id. apply map_ext. intros q. reflexivity. }
  destruct Hso as [Hso Hsot].
  unfold cbind at 1. unfold lib at 1. rewrite punch_out_run. fold pid. fold so.
  unfold cbind at 1. unfold lib at 1. rewrite punch_in_run. cbn [cret].
  eexists. split; [reflexivity|].
  assert (Hnp : new_punch (env_now env) tc (negb unpaid) (punch_descr descr)
                  (deactivate_old_punches tc so) = np).
  { unfold new_punch, np, next_punch_id, deactivate_old_punches. cbn [punches].
    rewrite map_p_id_deactivate, Hso, map_p_id_close. reflexivity. }
  split; [|split].
  - exact Hsot.
  - unfold punch_timecard. rewrite Hnp. unfold deactivate_old_punches. cbn [punches].
    rewrite Hso, map_map.
    reflexivity.
  - rewrite punch_in_active. rewrite Hnp. reflexivity.
Qed.

(** Timecard 1, active, with one open punch. *)
Definition store_open_punch : Store :=
  mkStore [mkTimecard 1 "alice" "Week 3" true 0 None]
          [mkPunch 1 1 "Time Worked" true true 100 None].

Lemma perform_double_punch_witness :
  find_timecard 1 store_open_punch = Some (mkTimecard 1 "alice" "Week 3" true 0 None) /\
  tc_active (mkTimecard 1 "alice" "Week 3" true 0 None) = true /\
  let pid := active_punch_id 1 store_open_punch in
  let np := mkPunch (next_punch_id store_open_punch) 1 (punch_descr None) (negb false) true
              (env_now env0) None in
  exists s',
    perform_punch env0 PunchTypeDouble None false (Some 1) (Some store_open_punch) = (CliOk tt, Some s') /\
    timecards s' = timecards store_open_punch /\
    punches s' = (map (fun p => deactivate_if_timecard 1
                                  (close_if_id (env_now env0)
                                     (if py_int_truthy pid then pid else None) p))
                      (punches store_open_punch) ++ [np])%list /\
    active_punches_of 1 s' = [np].
Proof.
  assert (H1 : find_timecard 1 store_open_punch = Some (mkTimecard 1 "alice" "Week 3" true 0 None))
    by reflexivity.
  assert (H2 : tc_active (mkTimecard 1 "alice" "Week 3" true 0 None) = true) by reflexivity.
  split; [exact H1|]. split; [exact H2|].
  exact (perform_double_punch env0 None false 1 store_open_punch _ H1 H2).
Defined.

Example perform_double_punch_example :
  perform_punch env0 PunchTypeDouble None false (Some 1) (Some store_open_punch) =
  (CliOk tt, Some (mkStore [mkTimecard 1 "alice" "Week 3" true 0 None]
                           [mkPunch 1 1 "Time Worked" true false 100 (Some 1000);
                            mkPunch 2 1 "Time Worked" true true 1000 None])).
Proof. reflexivity. Qed.
